(** * fmrisim_multivariate_example.ipynb

    A model of the notebook [examples/utils/fmrisim_multivariate_example.ipynb].

    The notebook is a straight-line script.  Two layers are modelled:

    - [Module Py] and [Module Glue]: Python's indexing and slicing, and the
      computations the notebook carries out itself on concrete data (the
      TR normalisation of cell 8, the event schedule of cell 24, the
      effect-size loop of cell 19, the label vector of cell 54);
    - [Module Script]: the whole notebook, cell after cell, as a program in
      a small state-and-exception monad that logs every call into an
      external library, every assignment and every in-place write, with
      library results kept symbolic.

    Numbers that Python holds as floats are modelled as rationals ([Q]):
    rounding, infinities and NaN are outside the model. *)

From Stdlib Require Import String Ascii.
From Stdlib Require Import List ZArith QArith Qround Bool Lia Lqa Permutation.
Import ListNotations.

(** ** Python values the notebook computes with *)

Module Py.

(** Exceptions the notebook's own statements can raise, and [LibError] for
    whatever an external library call raises. *)
Inductive exn : Type :=
| IndexError
| ValueError
| LibError (tag : nat).

Inductive result (A : Type) : Type :=
| Ok (a : A)
| Raise (e : exn).
Arguments Ok {A} a.
Arguments Raise {A} e.

Definition is_ok {A} (r : result A) : bool :=
  match r with Ok _ => true | Raise _ => false end.

(** [t[i]] on a tuple or list: negative indices count from the end, and an
    index outside [-len, len) raises IndexError. *)
Definition index {A} (t : list A) (i : Z) : result A :=
  let len := Z.of_nat (List.length t) in
  let j := if (i <? 0)%Z then (i + len)%Z else i in
  if ((j <? 0) || (len <=? j))%Z then Raise IndexError
  else match nth_error t (Z.to_nat j) with
       | Some a => Ok a
       | None => Raise IndexError
       end.

(** Bound of a slice after Python's clamping: [None] is the default. *)
Definition clamp (len : Z) (dflt : Z) (b : option Z) : Z :=
  match b with
  | None => dflt
  | Some i => if (i <? 0)%Z then Z.max (i + len) 0 else Z.min i len
  end.

(** [t[lo:hi]] with step 1: never raises, out-of-range bounds are clamped. *)
Definition slice {A} (t : list A) (lo hi : option Z) : list A :=
  let len := Z.of_nat (List.length t) in
  let l := clamp len 0%Z lo in
  let h := clamp len len hi in
  firstn (Z.to_nat (h - l)) (skipn (Z.to_nat l) t).

(** A slice [t[lo:hi]] with literal non-negative bounds is in bounds when
    no clamping takes place. *)
Definition slice_in_bounds {A} (t : list A) (lo hi : Z) : bool :=
  ((0 <=? lo) && (lo <=? hi) && (hi <=? Z.of_nat (List.length t)))%Z.

(** [int(x)] on a float: truncation towards zero. *)
Definition int_of (x : Q) : Z :=
  if Qle_bool 0 x then Qfloor x else Qceiling x.

(** [a / b] on two ints is true division; [int(a / b)] truncates it. *)
Definition int_div (a b : Z) : Z := Z.quot a b.

(** [list(range(0, n))]. *)
Definition range0 (n : Z) : list nat := seq 0 (Z.to_nat n).

End Py.

Import Py.

(** ** The notebook's own computations *)

Module Glue.

(** Float comparison [a > b]. *)
Definition gtb (a b : Q) : bool := negb (Qle_bool a b).

(** Cell 8, from the value read at [dimsize[3]]:
<<
    if tr > 100:
        tr /= 1000
>> *)
Definition normalize_tr (tr : Q) : Q :=
  if gtb tr 100 then tr / 1000 else tr.

(** Cell 8: [tr = dimsize[3]] followed by the unit normalisation. *)
Definition tr_of_zooms (dimsize : list Q) : result Q :=
  match index dimsize 3 with
  | Ok tr => Ok (normalize_tr tr)
  | Raise e => Raise e
  end.

(** What cells 8, 16 and 24 read out of the image geometry: [dimsize[3]],
    [dim[3]] and [dim[0:3]]. *)
Definition geometry_reads_ok (dim : list Z) (dimsize : list Q) : bool :=
  is_ok (index dimsize 3) && is_ok (index dim 3) && slice_in_bounds dim 0 3.

(** *** Cell 24: the event schedule *)

Definition event_duration : Z := 2.
Definition isi : Z := 3.
Definition burn_in : Z := 3.

(** [total_time = int(dim[3] * tr) + burn_in] *)
Definition total_time (dim3 : Z) (tr : Q) : Z :=
  (int_of (inject_Z dim3 * tr) + burn_in)%Z.

(** [events = int((total_time - ((event_duration + isi) * 2))
                  / ((event_duration + isi) * 2)) * 2] *)
Definition events (total_time : Z) : Z :=
  (int_div (total_time - ((event_duration + isi) * 2))
           ((event_duration + isi) * 2) * 2)%Z.

(** The [i]-th sample of [np.linspace(start, stop, num)] before the last
    one is pinned to [stop]. *)
Definition linspace_at (start stop : Q) (div : nat) (i : nat) : Q :=
  start + inject_Z (Z.of_nat i) * ((stop - start) / inject_Z (Z.of_nat div)).

(** [np.linspace(start, stop, num)] (endpoint included): a negative [num]
    raises ValueError, one sample is [start], and with more than one sample
    the last is set to [stop] itself. *)
Definition linspace (start stop : Q) (num : Z) : result (list Q) :=
  if (num <? 0)%Z then Raise ValueError
  else match Z.to_nat num with
       | O => Ok []
       | S O => Ok [start]
       | S div => Ok (map (linspace_at start stop div) (seq 0 div) ++ [stop])
       end.

(** [onsets_all = np.linspace(burn_in, events * (event_duration + isi), events)] *)
Definition onsets_all (events : Z) : result (list Q) :=
  linspace (inject_Z burn_in) (inject_Z (events * (event_duration + isi))) events.

(** [onsets_A = onsets_all[:int(events / 2)]], on the shuffled array. *)
Definition onsets_A (events : Z) (shuffled : list Q) : list Q :=
  slice shuffled None (Some (int_div events 2)).

(** [onsets_B = onsets_all[int(events / 2):]], on the shuffled array. *)
Definition onsets_B (events : Z) (shuffled : list Q) : list Q :=
  slice shuffled (Some (int_div events 2)) None.

(** *** Cells 47 and 54: trials and labels *)

(** Indexing the time axis of [brain] with an array of onsets selects one
    volume per onset, so [trials_A.shape[3]], and after the reshape
    [trials_A.shape[1]], is the number of onsets. *)
Definition trials_count (onsets : list Q) : Z := Z.of_nat (List.length onsets).

(** [n * [v]] on a Python list. *)
Definition list_repeat {A} (n : Z) (v : A) : list A := repeat v (Z.to_nat n).

(** [input_labels = trials_A.shape[1] * [1] + trials_B.shape[1] * [0]] *)
Definition input_labels (onsA onsB : list Q) : list Z :=
  list_repeat (trials_count onsA) 1%Z ++ list_repeat (trials_count onsB) 0%Z.

(** *** Cell 19: the effect-size loop, on concrete arrays *)

(** A three-dimensional array, indexed [a[x][y][z]]. *)
Definition arr3 : Type := list (list (list Q)).

Definition enum {A} (l : list A) : list (nat * A) :=
  combine (seq 0 (List.length l)) l.

(** Coordinates of the entries satisfying [p], in row-major order: the
    order in which [np.where] lists them. *)
Definition where_coords (p : Q -> bool) (a : arr3) : list (nat * nat * nat) :=
  flat_map (fun xp =>
    flat_map (fun yr =>
      flat_map (fun zv => if p (snd zv) then [(fst xp, fst yr, fst zv)] else [])
               (enum (snd yr)))
             (enum (snd xp)))
           (enum a).

(** [np.where(cond)]: one index array per axis. *)
Definition np_where (p : Q -> bool) (a : arr3)
  : list nat * list nat * list nat :=
  let cs := where_coords p a in
  (map (fun c => fst (fst c)) cs, map (fun c => snd (fst c)) cs, map snd cs).

(** [a.sum()] *)
Definition arr_sum (a : arr3) : Q :=
  fold_right (fun plane acc =>
    fold_right (fun row acc' => fold_right Qplus acc' row) acc plane) 0 a.

(** [a[x, y, z]] with non-negative indices. *)
Definition getitem3 (a : arr3) (x y z : nat) : result Q :=
  match nth_error a x with
  | None => Raise IndexError
  | Some plane =>
      match nth_error plane y with
      | None => Raise IndexError
      | Some row =>
          match nth_error row z with
          | None => Raise IndexError
          | Some v => Ok v
          end
      end
  end.

(** [np.zeros((n, 1))]: a column of [n] zeros, kept as the list of its
    rows' single entries; a negative [n] raises ValueError. *)
Definition zeros_col (n : Z) : result (list Q) :=
  if (n <? 0)%Z then Raise ValueError else Ok (repeat 0 (Z.to_nat n)).

(** [col[i] = v] in place. *)
Fixpoint setitem (col : list Q) (i : nat) (v : Q) : result (list Q) :=
  match col, i with
  | [], _ => Raise IndexError
  | _ :: rest, O => Ok (v :: rest)
  | c :: rest, S i' =>
      match setitem rest i' v with
      | Ok rest' => Ok (c :: rest')
      | Raise e => Raise e
      end
  end.

Definition and_then {A B} (r : result A) (f : A -> result B) : result B :=
  match r with Ok a => f a | Raise e => Raise e end.

(** One pass of the loop body:
<<
    x = signal_idxs[0][idx_counter]
    y = signal_idxs[1][idx_counter]
    z = signal_idxs[2][idx_counter]
    signal_change[idx_counter] = effect_size * temporal_sd[x, y, z]
>> *)
Definition loop_pass (effect_size : Q) (temporal_sd : arr3)
    (signal_idxs : list nat * list nat * list nat)
    (signal_change : list Q) (idx_counter : nat) : result (list Q) :=
  and_then (index (fst (fst signal_idxs)) (Z.of_nat idx_counter)) (fun x =>
  and_then (index (snd (fst signal_idxs)) (Z.of_nat idx_counter)) (fun y =>
  and_then (index (snd signal_idxs) (Z.of_nat idx_counter)) (fun z =>
  and_then (getitem3 temporal_sd x y z) (fun v =>
  setitem signal_change idx_counter (effect_size * v))))).

(** [for idx_counter in ...: body], threading the mutated array. *)
Fixpoint for_each (body : list Q -> nat -> result (list Q))
    (signal_change : list Q) (idxs : list nat) : result (list Q) :=
  match idxs with
  | [] => Ok signal_change
  | i :: rest => and_then (body signal_change i) (fun sc => for_each body sc rest)
  end.

(** Cell 19 from [signal_idxs = np.where(signal_volume == 1)] on. *)
Definition signal_change (effect_size : Q) (signal_volume temporal_sd : arr3)
  : result (list Q) :=
  let signal_idxs := np_where (fun v => Qeq_bool v 1) signal_volume in
  and_then (zeros_col (int_of (arr_sum signal_volume))) (fun sc0 =>
  for_each (loop_pass effect_size temporal_sd signal_idxs) sc0
           (range0 (int_of (arr_sum signal_volume)))).

(** The vectorised gather the loop is compared with, in the words of the
    specification: [effect_size * temporal_sd] at the coordinates of the
    nonzero voxels of [signal_volume], in [np.where] order. *)
Fixpoint gather (effect_size : Q) (temporal_sd : arr3)
    (cs : list (nat * nat * nat)) : result (list Q) :=
  match cs with
  | [] => Ok []
  | (x, y, z) :: rest =>
      and_then (getitem3 temporal_sd x y z) (fun v =>
      and_then (gather effect_size temporal_sd rest) (fun vs =>
      Ok (effect_size * v :: vs)))
  end.

Definition nonzero (v : Q) : bool := negb (Qeq_bool v 0).

Definition vectorized_gather (effect_size : Q) (signal_volume temporal_sd : arr3)
  : result (list Q) :=
  gather effect_size temporal_sd (where_coords nonzero signal_volume).

(** The claim about the loop, in the words of the specification: the
    array [r] the loop leaves behind has one entry per nonzero voxel of
    [signal_volume], and its [i]-th entry is [effect_size] times
    [temporal_sd] at the [i]-th nonzero voxel in [np.where] order. *)
Definition entrywise_gather (effect_size : Q) (signal_volume temporal_sd : arr3)
    (r : list Q) : Prop :=
  List.length r = List.length (where_coords nonzero signal_volume) /\
  forall i x y z,
    nth_error (where_coords nonzero signal_volume) i = Some (x, y, z) ->
    exists w v, getitem3 temporal_sd x y z = Ok w /\
                nth_error r i = Some v /\ v == effect_size * w.

Definition loop_is_gather (effect_size : Q) (signal_volume temporal_sd : arr3)
  : Prop :=
  forall r, signal_change effect_size signal_volume temporal_sd = Ok r ->
            entrywise_gather effect_size signal_volume temporal_sd r.

(** Every entry of the array is 0 or 1. *)
Definition binary (a : arr3) : bool :=
  forallb (forallb (forallb (fun v => Qeq_bool v 0 || Qeq_bool v 1))) a.

(** *** Cell 47: the region of interest and the trial volumes *)

(** One axis of
    [lb = (coordinates - ((feature_size - 1) / 2)).astype('int')[0]]. *)
Definition roi_lb (coordinate feature_size : Z) : Z :=
  int_of (inject_Z coordinate - inject_Z (feature_size - 1) / 2).

(** One axis of
    [ub = (coordinates + ((feature_size - 1) / 2) + 1).astype('int')[0]]. *)
Definition roi_ub (coordinate feature_size : Z) : Z :=
  int_of (inject_Z coordinate + inject_Z (feature_size - 1) / 2 + 1).

(** One axis of [brain[lb[0]:ub[0], lb[1]:ub[1], lb[2]:ub[2], ...]]. *)
Definition roi_axis {A} (axis : list A) (coordinate feature_size : Z) : list A :=
  slice axis (Some (roi_lb coordinate feature_size))
             (Some (roi_ub coordinate feature_size)).

(** One entry of [(onsets + hrf_lag / tr).astype('int')]. *)
Definition trial_index (hrf_lag : Z) (tr onset : Q) : Z :=
  int_of (onset + inject_Z hrf_lag / tr).

End Glue.

Import Glue.


(** ** The notebook as a program *)

Module Script.

Set Warnings "-register-all".

(** Python values as the script sees them.  [VName] is a name that lives in
    an imported module, [VInts] and [VNums] are tuples of ints and of
    floats.  What an external library returns is opaque: [VRes n] is the
    object returned by the [n]-th external call of the run, and operators,
    subscripts and attribute reads on such objects stay symbolic. *)
Inductive val : Type :=
| VNone
| VBool (b : bool)
| VInt (z : Z)
| VNum (q : Q)
| VStr (s : string)
| VName (x : string)
| VTuple (vs : list val)
| VInts (zs : list Z)
| VNums (qs : list Q)
| VList (vs : list val)
| VDict (k : string) (v : val)
| VRes (n : nat)
| VAttr (v : val) (a : string)
| VItem (v : val) (i : val)
| VSlice (lo hi step : val)
| VOp (op : string) (args : list val)
| VKw (k : string) (v : val).

(** What a run leaves behind, one event per completed effect. *)
Inductive event : Type :=
| Call (f : string) (args : list val)
| Assign (x : string) (v : val)
| Store (target index value : val).

(** Everything outside the notebook: the home directory, the geometry of
    the image file, the sum of the signal volume, and which external call
    (counted from 0 in execution order) raises. *)
Record world : Type := World {
  home : string;
  shape : list Z;
  zooms : list Q;
  sv_sum : Q;
  raises : nat -> option exn }.

(** Number of external calls completed so far, and the events so far,
    latest first. *)
Record state : Type := State { count : nat; trace : list event }.

Definition M (A : Type) : Type := state -> result A * state.

Definition ret {A} (a : A) : M A := fun s => (Ok a, s).

(** Sequencing: there is no [try] in the notebook, so an exception skips
    everything that follows. *)
Definition bind {A B} (m : M A) (k : A -> M B) : M B :=
  fun s => match m s with
           | (Ok a, s') => k a s'
           | (Raise e, s') => (Raise e, s')
           end.

Definition lift {A} (r : result A) : M A := fun s => (r, s).

Definition log (e : event) : M unit :=
  fun s => (Ok tt, State (count s) (e :: trace s)).

Declare Scope py_scope.
Delimit Scope py_scope with py.
Notation "x <- m ;; k" := (bind m (fun x => k))
  (at level 61, m at next level, right associativity) : py_scope.
Notation "m ;; k" := (bind m (fun _ => k))
  (at level 61, right associativity) : py_scope.
Open Scope py_scope.

(** [x = e]: the binding is logged once [e] has been evaluated. *)
Definition set (x : string) (m : M val) : M val :=
  v <- m ;; log (Assign x v) ;; ret v.

(** [for i in idxs: body i]. *)
Fixpoint for_ (idxs : list nat) (body : nat -> M unit) : M unit :=
  match idxs with
  | [] => ret tt
  | i :: rest => body i ;; for_ rest body
  end.

(** A step of zero in [a[::step]] or [range(0, n, step)] raises. *)
Definition nonzero_step (step : Z) : M Z :=
  lift (if (step =? 0)%Z then Raise ValueError else Ok step).

(** [:] inside a subscript. *)
Definition all_ : val := VSlice VNone VNone VNone.

Local Open Scope string_scope.

Section Notebook.

Variable w : world.

(** A call into an external library: it raises when the world says so,
    otherwise it is logged and returns a fresh opaque object. *)
Definition call (f : string) (args : list val) : M val :=
  fun s => match raises w (count s) with
           | Some e => (Raise e, s)
           | None => (Ok (VRes (count s)),
                      State (S (count s)) (Call f args :: trace s))
           end.

(** [obj.name(args)] *)
Definition meth (obj : val) (name : string) (args : list val) : M val :=
  call ("." ++ name) (obj :: args).

(** *** Section 1 of the notebook: parameters and noise estimation *)

Record env1 : Type := Env1 {
  v_home : string;
  volume : val;
  dim : list Z;
  dimsize : list Q;
  tr : Q;
  mask : val;
  template : val;
  noise_dict : val }.

(** Cell 6:
<<
    home = str(Path.home())
    nii = nibabel.load(home + '/Corr_MVPA/Participant_01_rest_run01.nii')
    volume = nii.get_data()
>>
    Cell 8:
<<
    dim = volume.shape
    dimsize = nii.header.get_zooms()
    tr = dimsize[3]
    if tr > 100:  # If high then these values are likely in ms
        tr /= 1000
    print(dim)
>>
    Cell 10:
<<
    mask, template = fmrisim.mask_brain(volume=volume, mask_self=True)
>>
    Cell 12:
<<
    noise_dict = {'voxel_size': [dimsize[0], dimsize[1], dimsize[2]]}
    noise_dict = fmrisim.calc_noise(volume=volume, mask=mask,
                                    noise_dict=noise_dict)
>>
    Cell 13 prints three of the estimated parameters. *)
Definition section1 : M env1 :=
  (* cell 6 *)
  _ <- set "home" (call "Path.home" [] ;; ret (VStr (home w))) ;;
  nii <- set "nii" (call "nibabel.load"
           [VStr (home w ++ "/Corr_MVPA/Participant_01_rest_run01.nii")]) ;;
  volume <- set "volume" (meth nii "get_data" []) ;;
  (* cell 8 *)
  _ <- set "dim" (ret (VInts (shape w))) ;;
  _ <- set "dimsize" (meth (VAttr nii "header") "get_zooms" [] ;;
                      ret (VNums (zooms w))) ;;
  tr0 <- lift (index (zooms w) 3) ;;
  _ <- set "tr" (ret (VNum tr0)) ;;
  tr <- (if gtb tr0 100
         then set "tr" (ret (VNum (tr0 / 1000))) ;; ret (tr0 / 1000)
         else ret tr0) ;;
  call "print" [VInts (shape w)] ;;
  (* cell 10 *)
  r <- call "fmrisim.mask_brain" [VKw "volume" volume; VKw "mask_self" (VBool true)] ;;
  mask <- set "mask" (ret (VItem r (VInt 0))) ;;
  template <- set "template" (ret (VItem r (VInt 1))) ;;
  (* cell 12 *)
  z0 <- lift (index (zooms w) 0) ;;
  z1 <- lift (index (zooms w) 1) ;;
  z2 <- lift (index (zooms w) 2) ;;
  noise_dict <- set "noise_dict"
    (ret (VDict "voxel_size" (VList [VNum z0; VNum z1; VNum z2]))) ;;
  noise_dict <- set "noise_dict"
    (call "fmrisim.calc_noise"
       [VKw "volume" volume; VKw "mask" mask; VKw "noise_dict" noise_dict]) ;;
  (* cell 13 *)
  call "print" [VStr "Noise parameters of the data were estimated as follows:"] ;;
  call "print" [VOp "+" [VStr "SNR: "; VOp "str" [VItem noise_dict (VStr "snr")]]] ;;
  call "print" [VOp "+" [VStr "SFNR: "; VOp "str" [VItem noise_dict (VStr "sfnr")]]] ;;
  call "print" [VOp "+" [VStr "FWHM: "; VOp "str" [VItem noise_dict (VStr "fwhm")]]] ;;
  ret (Env1 (home w) volume (shape w) (zooms w) tr mask template noise_dict).

(** *** Section 2 of the notebook: the signal *)

Definition feature_size : Z := 3.
Definition effect_size : Z := 1.

(** Cell 16:
<<
    coordinates = np.array([[24, 24, 24]])
    feature_size = 3
    signal_volume = fmrisim.generate_signal(dimensions=dim[0:3],
                                            feature_type=['cube'],
                                            feature_coordinates=coordinates,
                                            feature_size=[feature_size],
                                            signal_magnitude=[1])
>>
    Cell 17 shows slice 24 of the signal volume over the mask. *)
Definition cells_16_17 (e1 : env1) : M (val * val) :=
  coordinates <- set "coordinates"
    (call "np.array" [VList [VList [VInt 24; VInt 24; VInt 24]]]) ;;
  _ <- set "feature_size" (ret (VInt feature_size)) ;;
  signal_volume <- set "signal_volume"
    (call "fmrisim.generate_signal"
       [VKw "dimensions" (VInts (slice (dim e1) (Some 0%Z) (Some 3%Z)));
        VKw "feature_type" (VList [VStr "cube"]);
        VKw "feature_coordinates" coordinates;
        VKw "feature_size" (VList [VInt feature_size]);
        VKw "signal_magnitude" (VList [VInt 1])]) ;;
  call "plt.figure" [] ;;
  call "plt.imshow" [VItem signal_volume (VTuple [all_; all_; VInt 24]);
                     VKw "cmap" (VName "plt.cm.gray")] ;;
  call "plt.imshow" [VItem (mask e1) (VTuple [all_; all_; VInt 24]);
                     VKw "cmap" (VName "plt.cm.gray"); VKw "alpha" (VNum (1 # 2))] ;;
  call "plt.axis" [VStr "off"] ;;
  ret (coordinates, signal_volume).

(** The body of the loop of cell 19:
<<
    x = signal_idxs[0][idx_counter]
    y = signal_idxs[1][idx_counter]
    z = signal_idxs[2][idx_counter]
    signal_change[idx_counter] = effect_size * temporal_sd[x, y, z]
>> *)
Definition loop_body (signal_idxs signal_change temporal_sd : val)
    (idx_counter : nat) : M unit :=
  let i := VInt (Z.of_nat idx_counter) in
  x <- set "x" (ret (VItem (VItem signal_idxs (VInt 0)) i)) ;;
  y <- set "y" (ret (VItem (VItem signal_idxs (VInt 1)) i)) ;;
  z <- set "z" (ret (VItem (VItem signal_idxs (VInt 2)) i)) ;;
  log (Store signal_change i
         (VOp "*" [VInt effect_size; VItem temporal_sd (VTuple [x; y; z])])).

(** Cell 19:
<<
    effect_size = 1
    temporal_sd = template * noise_dict['max_activity'] / noise_dict['sfnr']
    signal_idxs = np.where(signal_volume == 1)
    signal_change = np.zeros((int(signal_volume.sum()), 1))
    for idx_counter in list(range(0, int(signal_volume.sum()))):
        ...
>> *)
Definition cell_19 (e1 : env1) (signal_volume : val) : M val :=
  _ <- set "effect_size" (ret (VInt effect_size)) ;;
  temporal_sd <- set "temporal_sd"
    (ret (VOp "/" [VOp "*" [template e1; VItem (noise_dict e1) (VStr "max_activity")];
                   VItem (noise_dict e1) (VStr "sfnr")])) ;;
  signal_idxs <- set "signal_idxs"
    (call "np.where" [VOp "==" [signal_volume; VInt 1]]) ;;
  signal_change <- set "signal_change"
    (meth signal_volume "sum" [] ;;
     call "np.zeros" [VTuple [VInt (int_of (sv_sum w)); VInt 1]]) ;;
  meth signal_volume "sum" [] ;;
  for_ (range0 (int_of (sv_sum w)))
       (loop_body signal_idxs signal_change temporal_sd) ;;
  ret signal_change.

(** Cell 21:
<<
    voxels = feature_size ** 3
    pattern_A = np.random.randn(voxels).reshape((voxels, 1)) * signal_change
    pattern_B = np.random.randn(voxels).reshape((voxels, 1)) * signal_change
>>
    Cell 22 plots the two patterns. *)
Definition voxels : Z := (feature_size ^ 3)%Z.

Definition tick_params : M val :=
  call "plt.tick_params"
    [VKw "which" (VStr "both"); VKw "left" (VStr "off");
     VKw "labelleft" (VStr "off"); VKw "bottom" (VStr "off");
     VKw "labelbottom" (VStr "off")].

Definition cells_21_22 (signal_change : val) : M (val * val) :=
  _ <- set "voxels" (ret (VInt voxels)) ;;
  pattern_A <- set "pattern_A"
    (r <- call "np.random.randn" [VInt voxels] ;;
     r <- meth r "reshape" [VTuple [VInt voxels; VInt 1]] ;;
     ret (VOp "*" [r; signal_change])) ;;
  pattern_B <- set "pattern_B"
    (r <- call "np.random.randn" [VInt voxels] ;;
     r <- meth r "reshape" [VTuple [VInt voxels; VInt 1]] ;;
     ret (VOp "*" [r; signal_change])) ;;
  call "plt.figure" [] ;;
  call "plt.subplot" [VInt 1; VInt 2; VInt 1] ;;
  call "plt.imshow" [pattern_A] ;;
  call "plt.ylabel" [VStr "Voxels"] ;;
  tick_params ;;
  call "plt.xlabel" [VStr "Condition A"] ;;
  call "plt.subplot" [VInt 1; VInt 2; VInt 2] ;;
  call "plt.imshow" [pattern_B] ;;
  tick_params ;;
  call "plt.xlabel" [VStr "Condition B"] ;;
  ret (pattern_A, pattern_B).

Record env2 : Type := Env2 {
  coordinates : val;
  signal_volume : val;
  v_total_time : Z;
  v_onsets_A : val;
  v_onsets_B : val;
  stimfunc_A : val;
  weights_all : val;
  signal : val }.

Definition temporal_res : Q := 1.

(** Cell 24, see [Glue.total_time], [Glue.events], [Glue.onsets_A] and
    [Glue.onsets_B] for the arithmetic:
<<
    total_time = int(dim[3] * tr) + burn_in
    events = int((total_time - ((event_duration + isi) * 2)) / ((event_duration + isi) * 2)) * 2
    onsets_all = np.linspace(burn_in, events * (event_duration + isi), events)
    np.random.shuffle(onsets_all)
    onsets_A = onsets_all[:int(events / 2)]
    onsets_B = onsets_all[int(events / 2):]
    temporal_res = 1.0
    stimfunc_A = fmrisim.generate_stimfunction(onsets=onsets_A, ...)
    stimfunc_B = fmrisim.generate_stimfunction(onsets=onsets_B, ...)
>> *)
Definition generate_stimfunction (onsets : val) (total_time : Z) : M val :=
  call "fmrisim.generate_stimfunction"
    [VKw "onsets" onsets;
     VKw "event_durations" (VList [VInt event_duration]);
     VKw "total_time" (VInt total_time);
     VKw "temporal_resolution" (VNum temporal_res)].

Definition cell_24 (e1 : env1) : M (Z * val * val * val * val) :=
  _ <- set "event_duration" (ret (VInt event_duration)) ;;
  _ <- set "isi" (ret (VInt isi)) ;;
  _ <- set "burn_in" (ret (VInt burn_in)) ;;
  dim3 <- lift (index (dim e1) 3) ;;
  let total_time := total_time dim3 (tr e1) in
  _ <- set "total_time" (ret (VInt total_time)) ;;
  let events := events total_time in
  _ <- set "events" (ret (VInt events)) ;;
  onsets_all <- set "onsets_all"
    (call "np.linspace"
       [VInt burn_in; VInt (events * (event_duration + isi)); VInt events]) ;;
  call "np.random.shuffle" [onsets_all] ;;
  onsets_A <- set "onsets_A"
    (ret (VItem onsets_all (VSlice VNone (VInt (int_div events 2)) VNone))) ;;
  onsets_B <- set "onsets_B"
    (ret (VItem onsets_all (VSlice (VInt (int_div events 2)) VNone VNone))) ;;
  _ <- set "temporal_res" (ret (VNum temporal_res)) ;;
  stimfunc_A <- set "stimfunc_A" (generate_stimfunction onsets_A total_time) ;;
  stimfunc_B <- set "stimfunc_B" (generate_stimfunction onsets_B total_time) ;;
  ret (total_time, onsets_A, onsets_B, stimfunc_A, stimfunc_B).

(** Cell 26: the three files the notebook has the library write.
<<
    fmrisim.export_epoch_file(stimfunction=[np.hstack((stimfunc_A, stimfunc_B))],
                              filename=home + '/epoch_file.npy',
                              tr_duration=tr, temporal_resolution=temporal_res)
    fmrisim.export_3_column(stimfunction=stimfunc_A,
                            filename=home + '/Condition_A.txt',
                            temporal_resolution=temporal_res)
    fmrisim.export_3_column(stimfunction=stimfunc_B,
                            filename=home + '/Condition_B.txt',
                            temporal_resolution=temporal_res)
>> *)
Definition cell_26 (e1 : env1) (stimfunc_A stimfunc_B : val) : M unit :=
  stacked <- call "np.hstack" [VTuple [stimfunc_A; stimfunc_B]] ;;
  call "fmrisim.export_epoch_file"
    [VKw "stimfunction" (VList [stacked]);
     VKw "filename" (VStr (v_home e1 ++ "/epoch_file.npy"));
     VKw "tr_duration" (VNum (tr e1));
     VKw "temporal_resolution" (VNum temporal_res)] ;;
  call "fmrisim.export_3_column"
    [VKw "stimfunction" stimfunc_A;
     VKw "filename" (VStr (v_home e1 ++ "/Condition_A.txt"));
     VKw "temporal_resolution" (VNum temporal_res)] ;;
  call "fmrisim.export_3_column"
    [VKw "stimfunction" stimfunc_B;
     VKw "filename" (VStr (v_home e1 ++ "/Condition_B.txt"));
     VKw "temporal_resolution" (VNum temporal_res)] ;;
  ret tt.

(** Cell 28:
<<
    weights_A = np.matlib.repmat(stimfunc_A, 1, voxels).transpose() * pattern_A
    weights_B = np.matlib.repmat(stimfunc_B, 1, voxels).transpose() * pattern_B
    weights_all = weights_A + weights_B
    weights_all = weights_all.transpose()
>> *)
Definition cell_28 (stimfunc_A stimfunc_B pattern_A pattern_B : val) : M val :=
  weights_A <- set "weights_A"
    (r <- call "np.matlib.repmat" [stimfunc_A; VInt 1; VInt voxels] ;;
     r <- meth r "transpose" [] ;;
     ret (VOp "*" [r; pattern_A])) ;;
  weights_B <- set "weights_B"
    (r <- call "np.matlib.repmat" [stimfunc_B; VInt 1; VInt voxels] ;;
     r <- meth r "transpose" [] ;;
     ret (VOp "*" [r; pattern_B])) ;;
  weights_all <- set "weights_all" (ret (VOp "+" [weights_A; weights_B])) ;;
  set "weights_all" (meth weights_all "transpose" []).

(** Cell 30:
<<
    signal_func = fmrisim.convolve_hrf(stimfunction=weights_all,
                                       tr_duration=tr,
                                       temporal_resolution= temporal_res / tr,
                                       scale_function=0)
>>
    Cell 31 plots the first 100 samples of the events and of the z-scored
    response; cell 33:
<<
    signal = fmrisim.apply_signal(signal_func, signal_volume)
>> *)
Definition cells_30_33 (e1 : env1) (signal_volume stimfunc_A stimfunc_B weights_all : val)
  : M val :=
  signal_func <- set "signal_func"
    (call "fmrisim.convolve_hrf"
       [VKw "stimfunction" weights_all;
        VKw "tr_duration" (VNum (tr e1));
        VKw "temporal_resolution" (VOp "/" [VNum temporal_res; VNum (tr e1)]);
        VKw "scale_function" (VInt 0)]) ;;
  let first100 := VTuple [VSlice (VInt 0) (VInt 100) VNone; VInt 0] in
  call "plt.figure" [] ;;
  response <- set "response" (call "stats.zscore" [VItem signal_func first100]) ;;
  call "plt.title" [VStr "Example event time course and voxel response"] ;;
  _ <- set "Event_A" (call "plt.plot" [VItem stimfunc_A first100; VStr "r";
                                       VKw "label" (VStr "Event_A")]) ;;
  _ <- set "Event_B" (call "plt.plot" [VItem stimfunc_B first100; VStr "g";
                                       VKw "label" (VStr "Event_B")]) ;;
  _ <- set "Response" (call "plt.plot" [response; VStr "b";
                                        VKw "label" (VStr "Response")]) ;;
  call "plt.legend" [VKw "loc" (VInt 1)] ;;
  set "signal" (call "fmrisim.apply_signal" [signal_func; signal_volume]).

Definition section2 (e1 : env1) : M env2 :=
  cs <- cells_16_17 e1 ;;
  signal_change <- cell_19 e1 (snd cs) ;;
  ps <- cells_21_22 signal_change ;;
  ev <- cell_24 e1 ;;
  let '(total_time, onsets_A, onsets_B, stimfunc_A, stimfunc_B) := ev in
  cell_26 e1 stimfunc_A stimfunc_B ;;
  weights_all <- cell_28 stimfunc_A stimfunc_B (fst ps) (snd ps) ;;
  signal <- cells_30_33 e1 (snd cs) stimfunc_A stimfunc_B weights_all ;;
  ret (Env2 (fst cs) (snd cs) total_time onsets_A onsets_B stimfunc_A
            weights_all signal).

(** *** Section 3 of the notebook: the noise *)

(** Cell 35:
<<
    noise = fmrisim.generate_noise(dimensions=dim[0:3],
                                   tr_duration=int(tr),
                                   stimfunction_tr=weights_all[::int(tr)],
                                   mask=mask, template=template,
                                   noise_dict=noise_dict)
>>
    Cell 36 shows one slice of it. *)
Definition cells_35_36 (e1 : env1) (e2 : env2) : M val :=
  noise <- set "noise"
    (step <- nonzero_step (int_of (tr e1)) ;;
     call "fmrisim.generate_noise"
       [VKw "dimensions" (VInts (slice (dim e1) (Some 0%Z) (Some 3%Z)));
        VKw "tr_duration" (VInt (int_of (tr e1)));
        VKw "stimfunction_tr"
          (VItem (weights_all e2) (VSlice VNone VNone (VInt step)));
        VKw "mask" (mask e1);
        VKw "template" (template e1);
        VKw "noise_dict" (noise_dict e1)]) ;;
  call "plt.figure" [] ;;
  call "plt.imshow" [VItem noise (VTuple [all_; all_; VInt 24; VInt 0]);
                     VKw "cmap" (VName "plt.cm.gray")] ;;
  call "plt.axis" [VStr "off"] ;;
  ret noise.

(** Cell 38: two spatial noise fields, drawn side by side. *)
Definition cell_38 (e1 : env1) : M unit :=
  let dims := VInts (slice (dim e1) (Some 0%Z) (Some 3%Z)) in
  low_spatial <- set "low_spatial"
    (call "fmrisim._generate_noise_spatial" [dims; VKw "fwhm" (VNum 4)]) ;;
  high_spatial <- set "high_spatial"
    (call "fmrisim._generate_noise_spatial" [dims; VKw "fwhm" (VNum 1)]) ;;
  call "plt.figure" [] ;;
  call "plt.subplot" [VInt 1; VInt 2; VInt 1] ;;
  call "plt.title" [VStr "Low noise"] ;;
  call "plt.imshow" [VItem low_spatial (VTuple [all_; all_; VInt 12])] ;;
  call "plt.axis" [VStr "off"] ;;
  call "plt.subplot" [VInt 1; VInt 2; VInt 2] ;;
  call "plt.title" [VStr "High noise"] ;;
  call "plt.imshow" [VItem high_spatial (VTuple [all_; all_; VInt 12])] ;;
  call "plt.axis" [VStr "off"] ;;
  ret tt.

(** One panel of the figure of cell 39. *)
Definition panel (k : Z) (series : val) (label : string) : M val :=
  call "plt.subplot" [VInt 4; VInt 1; VInt k] ;;
  call "plt.plot" [series] ;;
  call "plt.axis" [VStr "off"] ;;
  call "plt.xlabel" [VStr label].

(** Cell 39: the four kinds of temporal noise, each generated by the
    library and plotted.
<<
    timepoints = list(range(0, total_time, int(tr)))
    drift = fmrisim._generate_noise_temporal_drift(total_time, int(tr))
    autoreg = fmrisim._generate_noise_temporal_autoregression(timepoints)
    phys = fmrisim._generate_noise_temporal_phys(timepoints)
    task = fmrisim._generate_noise_temporal_task(abs(stimfunc_A[::int(tr)]))
>> *)
Definition cell_39 (e1 : env1) (e2 : env2) : M unit :=
  timepoints <- set "timepoints"
    (step <- nonzero_step (int_of (tr e1)) ;;
     ret (VOp "list" [VOp "range" [VInt 0; VInt (v_total_time e2); VInt step]])) ;;
  drift <- set "drift"
    (call "fmrisim._generate_noise_temporal_drift"
       [VInt (v_total_time e2); VInt (int_of (tr e1))]) ;;
  autoreg <- set "autoreg"
    (call "fmrisim._generate_noise_temporal_autoregression" [timepoints]) ;;
  phys <- set "phys" (call "fmrisim._generate_noise_temporal_phys" [timepoints]) ;;
  task <- set "task"
    (step <- nonzero_step (int_of (tr e1)) ;;
     call "fmrisim._generate_noise_temporal_task"
       [VOp "abs" [VItem (stimfunc_A e2) (VSlice VNone VNone (VInt step))]]) ;;
  call "plt.figure" [] ;;
  call "plt.title" [VStr "Noise types"] ;;
  panel 1 drift "Drift" ;;
  panel 2 autoreg "Autoregression" ;;
  panel 3 phys "Physiological" ;;
  panel 4 task "Task" ;;
  ret tt.

(** [plt.clim([system.min(), np.percentile(system, 95)])] *)
Definition clim (system : val) : M val :=
  lo <- meth system "min" [] ;;
  hi <- call "np.percentile" [system; VInt 95] ;;
  call "plt.clim" [VList [lo; hi]].

(** Cell 41: system noise and three views of it.
<<
    system = fmrisim._generate_noise_system(dimensions_tr=dim,
                                            spatial_sd=1.5, temporal_sd=1)
>> *)
Definition cell_41 (e1 : env1) : M unit :=
  system <- set "system"
    (call "fmrisim._generate_noise_system"
       [VKw "dimensions_tr" (VInts (dim e1));
        VKw "spatial_sd" (VNum (3 # 2)); VKw "temporal_sd" (VInt 1)]) ;;
  call "plt.figure" [] ;;
  call "plt.subplot" [VInt 1; VInt 3; VInt 1] ;;
  flat <- meth system "flatten" [] ;;
  call "plt.hist" [flat] ;;
  call "plt.title" [VStr "Activity distribution"] ;;
  call "plt.xlabel" [VStr "Activity"] ;;
  call "plt.ylabel" [VStr "Frequency"] ;;
  call "plt.subplot" [VInt 1; VInt 3; VInt 2] ;;
  call "plt.imshow" [VItem system (VTuple [all_; all_; VInt 0; VInt 0])] ;;
  call "plt.axis" [VStr "off"] ;;
  call "plt.title" [VStr "Spatial plane"] ;;
  clim system ;;
  call "plt.subplot" [VInt 1; VInt 3; VInt 3] ;;
  call "plt.imshow"
    [VItem system (VTuple [VInt 0; VSlice VNone (VInt 64) VNone;
                           VInt 0; VSlice VNone (VInt 64) VNone])] ;;
  call "plt.axis" [VStr "off"] ;;
  call "plt.title" [VStr "Temporal plane"] ;;
  clim system ;;
  ret tt.

(** Cell 44: [brain = signal + noise] *)
Definition cell_44 (e2 : env2) (noise : val) : M val :=
  set "brain" (ret (VOp "+" [signal e2; noise])).

Definition section3 (e1 : env1) (e2 : env2) : M val :=
  noise <- cells_35_36 e1 e2 ;;
  cell_38 e1 ;;
  cell_39 e1 e2 ;;
  cell_41 e1 ;;
  cell_44 e2 noise.

(** *** Section 4 of the notebook: the analysis *)

Definition hrf_lag : Z := 4.

(** [a.shape[k]] of an opaque array. *)
Definition shape_at (a : val) (k : Z) : val := VItem (VAttr a "shape") (VInt k).

(** Cell 47:
<<
    hrf_lag = 4
    lb = (coordinates - ((feature_size - 1) / 2)).astype('int')[0]
    ub = (coordinates + ((feature_size - 1) / 2) + 1).astype('int')[0]
    trials_A = brain[lb[0]:ub[0], lb[1]:ub[1], lb[2]:ub[2],
                     (onsets_A + hrf_lag / tr).astype('int')]
    trials_B = ... onsets_B ...
    trials_A = trials_A.reshape((voxels, trials_A.shape[3]))
    trials_B = trials_B.reshape((voxels, trials_B.shape[3]))
>>
    Cell 48 shows the two trial matrices. *)
Definition pull_trials (e1 : env1) (brain lb ub onsets : val) : M val :=
  idx <- meth (VOp "+" [onsets; VOp "/" [VInt hrf_lag; VNum (tr e1)]])
              "astype" [VStr "int"] ;;
  ret (VItem brain
         (VTuple [VSlice (VItem lb (VInt 0)) (VItem ub (VInt 0)) VNone;
                  VSlice (VItem lb (VInt 1)) (VItem ub (VInt 1)) VNone;
                  VSlice (VItem lb (VInt 2)) (VItem ub (VInt 2)) VNone;
                  idx])).

Definition cells_47_48 (e1 : env1) (e2 : env2) (brain : val) : M (val * val) :=
  _ <- set "hrf_lag" (ret (VInt hrf_lag)) ;;
  let half := VNum (inject_Z (feature_size - 1) / 2) in
  lb <- set "lb"
    (r <- meth (VOp "-" [coordinates e2; half]) "astype" [VStr "int"] ;;
     ret (VItem r (VInt 0))) ;;
  ub <- set "ub"
    (r <- meth (VOp "+" [VOp "+" [coordinates e2; half]; VInt 1])
               "astype" [VStr "int"] ;;
     ret (VItem r (VInt 0))) ;;
  trials_A <- set "trials_A" (pull_trials e1 brain lb ub (v_onsets_A e2)) ;;
  trials_B <- set "trials_B" (pull_trials e1 brain lb ub (v_onsets_B e2)) ;;
  trials_A <- set "trials_A"
    (meth trials_A "reshape" [VTuple [VInt voxels; shape_at trials_A 3]]) ;;
  trials_B <- set "trials_B"
    (meth trials_B "reshape" [VTuple [VInt voxels; shape_at trials_B 3]]) ;;
  call "plt.figure" [] ;;
  call "plt.subplot" [VInt 1; VInt 2; VInt 1] ;;
  call "plt.imshow" [trials_A] ;;
  call "plt.ylabel" [VStr "Voxels"] ;;
  call "plt.xlabel" [VStr "Trials"] ;;
  call "plt.subplot" [VInt 1; VInt 2; VInt 2] ;;
  call "plt.imshow" [trials_B] ;;
  call "plt.xlabel" [VStr "Trials"] ;;
  ret (trials_A, trials_B).

(** [np.vstack([trials_A.transpose(), trials_B.transpose()])] *)
Definition stack_trials (trials_A trials_B : val) : M val :=
  a <- meth trials_A "transpose" [] ;;
  b <- meth trials_B "transpose" [] ;;
  call "np.vstack" [VList [a; b]].

(** Cell 50:
<<
    distance_matrix = sp_distance.squareform(sp_distance.pdist(np.vstack(
        [trials_A.transpose(), trials_B.transpose()])))
    mds = manifold.MDS(n_components=2, dissimilarity='precomputed')
    coords = mds.fit(distance_matrix).embedding_
>>
    followed by a scatter plot of [coords]. *)
Definition cell_50 (trials_A trials_B : val) : M val :=
  distance_matrix <- set "distance_matrix"
    (stacked <- stack_trials trials_A trials_B ;;
     d <- call "sp_distance.pdist" [stacked] ;;
     call "sp_distance.squareform" [d]) ;;
  mds <- set "mds"
    (call "manifold.MDS"
       [VKw "n_components" (VInt 2); VKw "dissimilarity" (VStr "precomputed")]) ;;
  coords <- set "coords"
    (fitted <- meth mds "fit" [distance_matrix] ;;
     ret (VAttr fitted "embedding_")) ;;
  call "plt.figure" [] ;;
  call "plt.scatter"
    [VItem coords (VTuple [all_; VInt 0]); VItem coords (VTuple [all_; VInt 1]);
     VKw "c" (VOp "+" [VOp "*" [VList [VStr "red"]; shape_at trials_A 1];
                       VOp "*" [VList [VStr "green"]; shape_at trials_B 1]])] ;;
  call "plt.axis" [VStr "off"] ;;
  call "plt.title" [VStr "Low Dimensional Representation of conditions A and B"] ;;
  ret coords.

(** [str(v)[0:5]] *)
Definition str5 (v : val) : val :=
  VItem (VOp "str" [v]) (VSlice (VInt 0) (VInt 5) VNone).

(** Cell 52:
<<
    mean_difference = (np.mean(trials_A,0) - np.mean(trials_B,0))
    ttest = stats.ttest_1samp(mean_difference, 0)
>>
    and two printed lines. *)
Definition cell_52 (trials_A trials_B : val) : M val :=
  mean_difference <- set "mean_difference"
    (a <- call "np.mean" [trials_A; VInt 0] ;;
     b <- call "np.mean" [trials_B; VInt 0] ;;
     ret (VOp "-" [a; b])) ;;
  ttest <- set "ttest" (call "stats.ttest_1samp" [mean_difference; VInt 0]) ;;
  m <- meth mean_difference "mean" [] ;;
  call "print" [VOp "+" [VStr "Mean difference between condition A and B: "; str5 m]] ;;
  call "print" [VOp "+" [VStr "pvalue: "; str5 (VAttr ttest "pvalue")]] ;;
  ret ttest.

Record outputs : Type := Outputs {
  brain : val;
  trials_A : val;
  trials_B : val;
  coords : val;
  ttest : val;
  input_labels : val;
  clf : val;
  score : val }.

(** Cell 54:
<<
    input_mat = np.vstack([trials_A.transpose(), trials_B.transpose()])
    input_labels = trials_A.shape[1] * [1] + trials_B.shape[1] * [0]
    X_train, X_test, y_train, y_test = sklearn.model_selection.train_test_split(
        input_mat, input_labels, test_size=0.2, random_state=0)
    clf = sklearn.svm.SVC(kernel='linear', C=1).fit(X_train, y_train)
    score = clf.score(X_test, y_test)
    print('Classification accuracy between condition A and B: ' + str(score)[0:5])
>> *)
Definition cell_54 (trials_A trials_B : val) : M (val * val * val) :=
  input_mat <- set "input_mat" (stack_trials trials_A trials_B) ;;
  input_labels <- set "input_labels"
    (ret (VOp "+" [VOp "*" [shape_at trials_A 1; VList [VInt 1]];
                   VOp "*" [shape_at trials_B 1; VList [VInt 0]]])) ;;
  split <- call "sklearn.model_selection.train_test_split"
    [input_mat; input_labels; VKw "test_size" (VNum (1 # 5));
     VKw "random_state" (VInt 0)] ;;
  X_train <- set "X_train" (ret (VItem split (VInt 0))) ;;
  X_test <- set "X_test" (ret (VItem split (VInt 1))) ;;
  y_train <- set "y_train" (ret (VItem split (VInt 2))) ;;
  y_test <- set "y_test" (ret (VItem split (VInt 3))) ;;
  clf <- set "clf"
    (svc <- call "sklearn.svm.SVC" [VKw "kernel" (VStr "linear"); VKw "C" (VInt 1)] ;;
     meth svc "fit" [X_train; y_train]) ;;
  score <- set "score" (meth clf "score" [X_test; y_test]) ;;
  call "print"
    [VOp "+" [VStr "Classification accuracy between condition A and B: "; str5 score]] ;;
  ret (input_labels, clf, score).

Definition section4 (e1 : env1) (e2 : env2) (brain : val) : M outputs :=
  ts <- cells_47_48 e1 e2 brain ;;
  coords <- cell_50 (fst ts) (snd ts) ;;
  ttest <- cell_52 (fst ts) (snd ts) ;;
  r <- cell_54 (fst ts) (snd ts) ;;
  ret (Outputs brain (fst ts) (snd ts) coords ttest (fst (fst r)) (snd (fst r)) (snd r)).

(** The whole notebook, cell after cell. *)
Definition notebook : M outputs :=
  e1 <- section1 ;;
  e2 <- section2 e1 ;;
  brain <- section3 e1 e2 ;;
  section4 e1 e2 brain.

Definition run : result outputs * state := notebook (State 0 []).

End Notebook.

(** *** Reading a run *)

(** The external calls among some events. *)
Fixpoint calls_in (evs : list event) : list (string * list val) :=
  match evs with
  | [] => []
  | Call f args :: rest => (f, args) :: calls_in rest
  | _ :: rest => calls_in rest
  end.

(** The assignments among some events. *)
Fixpoint assigns_in (evs : list event) : list (string * val) :=
  match evs with
  | [] => []
  | Assign x v :: rest => (x, v) :: assigns_in rest
  | _ :: rest => assigns_in rest
  end.


(** The events that precede the [k]-th call (counted from 0). *)
Fixpoint before_call (k : nat) (evs : list event) : list event :=
  match evs with
  | [] => []
  | Call f args :: rest =>
      match k with
      | O => []
      | S k' => Call f args :: before_call k' rest
      end
  | e :: rest => e :: before_call k rest
  end.

(** The events of a run, in execution order. *)
Definition history (s : state) : list event := rev (trace s).

Definition callees (evs : list event) : list string := map fst (calls_in evs).


(** How often [f] occurs. *)
Definition times (f : string) (names : list string) : nat :=
  List.length (filter (String.eqb f) names).

(** The value of keyword argument [k]. *)
Fixpoint kwarg (k : string) (args : list val) : option val :=
  match args with
  | [] => None
  | VKw k' v :: rest => if String.eqb k k' then Some v else kwarg k rest
  | _ :: rest => kwarg k rest
  end.

(** The library functions that write a file take its name as [filename]. *)
Definition writes_file (f : string) : bool :=
  String.eqb f "fmrisim.export_epoch_file" || String.eqb f "fmrisim.export_3_column".

Definition files_written (evs : list event) : list val :=
  flat_map (fun c => if writes_file (fst c)
                     then match kwarg "filename" (snd c) with
                          | Some p => [p]
                          | None => []
                          end
                     else [])
           (calls_in evs).

(** The events of one pass of the loop of cell 19. *)
Definition loop_events (signal_idxs signal_change temporal_sd : val)
    (idx_counter : nat) : list event :=
  let i := VInt (Z.of_nat idx_counter) in
  let x := VItem (VItem signal_idxs (VInt 0)) i in
  let y := VItem (VItem signal_idxs (VInt 1)) i in
  let z := VItem (VItem signal_idxs (VInt 2)) i in
  [Assign "x" x; Assign "y" y; Assign "z" z;
   Store signal_change i
     (VOp "*" [VInt effect_size; VItem temporal_sd (VTuple [x; y; z])])].

(** *** Data flow between calls *)

(** The call results a value is built from. *)
Fixpoint refs (v : val) : list nat :=
  let refs_all := fix go (vs : list val) : list nat :=
    match vs with
    | [] => []
    | v' :: rest => (refs v' ++ go rest)%list
    end in
  match v with
  | VRes n => [n]
  | VTuple vs | VList vs | VOp _ vs => refs_all vs
  | VDict _ v' | VAttr v' _ | VKw _ v' => refs v'
  | VItem a i => (refs a ++ refs i)%list
  | VSlice lo hi step => (refs lo ++ refs hi ++ refs step)%list
  | _ => []
  end.

Definition arg_refs (args : list val) : list nat := flat_map refs args.

(** Every call is given only results of calls made before it. *)
Fixpoint scoped_from (k : nat) (cs : list (string * list val)) : bool :=
  match cs with
  | [] => true
  | (_, args) :: rest =>
      forallb (fun n => n <? k)%nat (arg_refs args) && scoped_from (S k) rest
  end.

Definition scoped (cs : list (string * list val)) : bool := scoped_from 0 cs.

Definition add (n : nat) (l : list nat) : list nat :=
  if existsb (Nat.eqb n) l then l else n :: l.

(** [ancestors cs] lists, for each call, the earlier calls whose results
    reach its arguments, directly or through other calls. *)
Definition ancestors (cs : list (string * list val)) : list (list nat) :=
  fold_left
    (fun table c =>
       (table ++
        [fold_right
           (fun n acc => fold_right add (add n acc) (nth n table []))
           [] (arg_refs (snd c))])%list)
    cs [].

(** Call [k] consumes, directly or indirectly, the result of call [n]. *)
Definition consumes (cs : list (string * list val)) (k n : nat) : bool :=
  existsb (Nat.eqb n) (nth k (ancestors cs) []).

(** The [k]-th call: its callee, its [i]-th argument, a keyword argument. *)
Definition callee_at (evs : list event) (k : nat) : option string :=
  option_map fst (nth_error (calls_in evs) k).

Definition arg_at (evs : list event) (k i : nat) : option val :=
  match nth_error (calls_in evs) k with
  | Some (_, args) => nth_error args i
  | None => None
  end.

Definition kwarg_at (evs : list event) (k : nat) (name : string) : option val :=
  match nth_error (calls_in evs) k with
  | Some (_, args) => kwarg name args
  | None => None
  end.

(** *** The calls of a complete run, by cell *)

Definition calls_section1 : list string :=
  ["Path.home"; "nibabel.load"; ".get_data"; ".get_zooms"; "print";
   "fmrisim.mask_brain"; "fmrisim.calc_noise";
   "print"; "print"; "print"; "print"].

Definition calls_section2 : list string :=
  ["np.array"; "fmrisim.generate_signal";
   "plt.figure"; "plt.imshow"; "plt.imshow"; "plt.axis";
   "np.where"; ".sum"; "np.zeros"; ".sum";
   "np.random.randn"; ".reshape"; "np.random.randn"; ".reshape";
   "plt.figure"; "plt.subplot"; "plt.imshow"; "plt.ylabel"; "plt.tick_params";
   "plt.xlabel"; "plt.subplot"; "plt.imshow"; "plt.tick_params"; "plt.xlabel";
   "np.linspace"; "np.random.shuffle";
   "fmrisim.generate_stimfunction"; "fmrisim.generate_stimfunction";
   "np.hstack"; "fmrisim.export_epoch_file";
   "fmrisim.export_3_column"; "fmrisim.export_3_column";
   "np.matlib.repmat"; ".transpose"; "np.matlib.repmat"; ".transpose";
   ".transpose";
   "fmrisim.convolve_hrf";
   "plt.figure"; "stats.zscore"; "plt.title"; "plt.plot"; "plt.plot";
   "plt.plot"; "plt.legend";
   "fmrisim.apply_signal"].

Definition calls_section3 : list string :=
  ["fmrisim.generate_noise"; "plt.figure"; "plt.imshow"; "plt.axis";
   "fmrisim._generate_noise_spatial"; "fmrisim._generate_noise_spatial";
   "plt.figure"; "plt.subplot"; "plt.title"; "plt.imshow"; "plt.axis";
   "plt.subplot"; "plt.title"; "plt.imshow"; "plt.axis";
   "fmrisim._generate_noise_temporal_drift";
   "fmrisim._generate_noise_temporal_autoregression";
   "fmrisim._generate_noise_temporal_phys";
   "fmrisim._generate_noise_temporal_task";
   "plt.figure"; "plt.title";
   "plt.subplot"; "plt.plot"; "plt.axis"; "plt.xlabel";
   "plt.subplot"; "plt.plot"; "plt.axis"; "plt.xlabel";
   "plt.subplot"; "plt.plot"; "plt.axis"; "plt.xlabel";
   "plt.subplot"; "plt.plot"; "plt.axis"; "plt.xlabel";
   "fmrisim._generate_noise_system";
   "plt.figure"; "plt.subplot"; ".flatten"; "plt.hist"; "plt.title";
   "plt.xlabel"; "plt.ylabel";
   "plt.subplot"; "plt.imshow"; "plt.axis"; "plt.title";
   ".min"; "np.percentile"; "plt.clim";
   "plt.subplot"; "plt.imshow"; "plt.axis"; "plt.title";
   ".min"; "np.percentile"; "plt.clim"].

Definition calls_section4 : list string :=
  [".astype"; ".astype"; ".astype"; ".astype"; ".reshape"; ".reshape";
   "plt.figure"; "plt.subplot"; "plt.imshow"; "plt.ylabel"; "plt.xlabel";
   "plt.subplot"; "plt.imshow"; "plt.xlabel";
   ".transpose"; ".transpose"; "np.vstack"; "sp_distance.pdist";
   "sp_distance.squareform"; "manifold.MDS"; ".fit";
   "plt.figure"; "plt.scatter"; "plt.axis"; "plt.title";
   "np.mean"; "np.mean"; "stats.ttest_1samp"; ".mean"; "print"; "print";
   ".transpose"; ".transpose"; "np.vstack";
   "sklearn.model_selection.train_test_split";
   "sklearn.svm.SVC"; ".fit"; ".score"; "print"].

Definition expected_calls : list string :=
  (calls_section1 ++ calls_section2 ++ calls_section3 ++ calls_section4)%list.

(** *** What a statement binds *)








(** [executes w c m evs a]: started after [c] external calls, [m] logs
    exactly [evs] and returns [a] when none of its calls raises; and when
    its [k]-th call is the first one to raise, [m] stops there with that
    exception, having logged only the events before that call. *)
Definition executes (w : world) {A} (c : nat) (m : M A)
    (evs : list event) (a : A) : Prop :=
  forall s, count s = c ->
    ((forall k, (c <= k < c + List.length (calls_in evs))%nat -> raises w k = None) ->
     m s = (Ok a, State (c + List.length (calls_in evs)) (rev evs ++ trace s)))
    /\
    (forall k e,
       (k < List.length (calls_in evs))%nat ->
       (forall j, (c <= j < c + k)%nat -> raises w j = None) ->
       raises w (c + k) = Some e ->
       m s = (Raise e, State (c + k) (rev (before_call k evs) ++ trace s))).

(** [runs w c m evs cs n a]: [executes w c m evs a], together with the
    calls [cs] among [evs] and their number [n]. *)
Definition runs (w : world) {A} (c : nat) (m : M A) (evs : list event)
    (cs : list (string * list val)) (n : nat) (a : A) : Prop :=
  cs = calls_in evs /\ n = List.length cs /\ executes w c m evs a.

(** A sample world: a 64 x 64 x 27 image of 300 volumes with a repetition
    time of 1500 ms, a signal volume of 27 voxels, no failing call. *)
Definition sample_world : world :=
  World "/home/u" [64; 64; 27; 300]%Z [3; 3; 7 # 2; 1500] 27 (fun _ => None).


(** A world whose image is a single volume: three dimensions. *)
Definition flat_world : world :=
  World "/home/u" [64; 64; 27]%Z [3; 3; 7 # 2] 27 (fun _ => None).

(** A world in which no external call raises. *)
Definition quiet (w : world) : Prop := forall k, raises w k = None.

(** A world whose image has at least four dimensions and whose repetition
    time, once normalised, does not truncate to zero ([int(tr)] is used as
    a slice and range step in cells 35 and 39). *)
Definition runnable (w : world) : Prop :=
  (4 <= List.length (shape w))%nat /\
  (4 <= List.length (zooms w))%nat /\
  forall t, tr_of_zooms (zooms w) = Ok t -> int_of t <> 0%Z.




End Script.

(** ** Properties *)

Lemma index_ok_iff {A} (t : list A) (i : nat) :
  is_ok (index t (Z.of_nat i)) = true <-> (i < List.length t)%nat.
Proof.
  unfold index.
  destruct (Z.of_nat i <? 0)%Z eqn:E; [apply Z.ltb_lt in E; lia|].
  rewrite Nat2Z.id.
  destruct ((Z.of_nat i <? 0) || (Z.of_nat (List.length t) <=? Z.of_nat i))%Z eqn:F.
  - simpl. split; [discriminate|].
    rewrite E in F. simpl in F. apply Z.leb_le in F. lia.
  - rewrite E in F. simpl in F. apply Z.leb_gt in F.
    destruct (nth_error t i) eqn:G; simpl.
    + split; [lia | reflexivity].
    + apply nth_error_None in G. lia.
Qed.

Example signal_change_on_a_cube :
  signal_change 1 [[[0; 1]; [1; 1]]] [[[5; 7]; [9; 11]]]
  = Ok [1 * 7; 1 * 9; 1 * 11].
Proof. reflexivity. Qed.

Example events_samples :
  events 303 = 58%Z /\ events 3 = 0%Z /\ events (-20) = (-6)%Z.
Proof. repeat split. Qed.


Lemma index_nat {A} (t : list A) (i : nat) (a : A) :
  nth_error t i = Some a -> index t (Z.of_nat i) = Ok a.
Proof.
  intros H.
  assert (i < List.length t)%nat by (apply nth_error_Some; congruence).
  unfold index.
  destruct (Z.of_nat i <? 0)%Z eqn:E; [apply Z.ltb_lt in E; lia|].
  destruct (Z.of_nat (List.length t) <=? Z.of_nat i)%Z eqn:F;
    [apply Z.leb_le in F; lia|].
  simpl. rewrite E. simpl. now rewrite Nat2Z.id, H.
Qed.

(** *** Cell 8: TR normalisation *)

Lemma gtb_true (a b : Q) : gtb a b = true <-> b < a.
Proof.
  unfold gtb. rewrite negb_true_iff.
  destruct (Qle_bool a b) eqn:E.
  - apply Qle_bool_iff in E. split; [discriminate | intros H; exfalso; lra].
  - split; [intros _ | reflexivity].
    apply Qnot_le_lt. intros H. apply Qle_bool_iff in H. congruence.
Qed.

Lemma gtb_false (a b : Q) : gtb a b = false <-> a <= b.
Proof.
  unfold gtb. rewrite negb_false_iff. apply Qle_bool_iff.
Qed.

Lemma tr_of_zooms_fourth (dimsize : list Q) (z : Q) :
  nth_error dimsize 3 = Some z -> tr_of_zooms dimsize = Ok (normalize_tr z).
Proof.
  intros Hz. unfold tr_of_zooms.
  pose proof (index_nat dimsize 3 z Hz) as E. simpl Z.of_nat in E.
  now rewrite E.
Qed.

Lemma normalize_tr_cases (z : Q) :
  (z <= 100 -> normalize_tr z = z) /\ (100 < z -> normalize_tr z = z / 1000).
Proof.
  unfold normalize_tr. destruct (gtb z 100) eqn:G.
  - apply gtb_true in G. split; [intros; exfalso; lra | reflexivity].
  - apply gtb_false in G. split; [reflexivity | intros; exfalso; lra].
Qed.

Example tr_in_milliseconds : tr_of_zooms [3; 3; 3; 1500] = Ok (1500 / 1000).
Proof. reflexivity. Qed.

(** *** Cell 24: the event schedule *)

Lemma events_even (t : Z) : Z.even (events t) = true.
Proof.
  unfold events. rewrite Z.even_mul. apply orb_true_r.
Qed.

Lemma linspace_at_inj (start stop : Q) (div i j : nat) :
  (0 < div)%nat -> ~ stop == start ->
  linspace_at start stop div i == linspace_at start stop div j -> i = j.
Proof.
  intros Hd Hne Heq. unfold linspace_at in Heq.
  set (d := inject_Z (Z.of_nat div)) in *.
  assert (Hdpos : 0 < d).
  { unfold d. change 0 with (inject_Z 0). rewrite <- Zlt_Qlt. lia. }
  set (s := (stop - start) / d) in *.
  assert (Hs : ~ s == 0).
  { intros Hs. apply Hne.
    assert (E : s * d == stop - start)
      by (unfold s; field; intros K; rewrite K in Hdpos; lra).
    rewrite Hs in E. lra. }
  apply (proj1 (Qplus_inj_l _ _ _)) in Heq.
  apply (proj1 (Qmult_inj_r _ _ _ Hs)) in Heq.
  apply (proj1 (inject_Z_injective _ _)) in Heq. now apply Nat2Z.inj.
Qed.

Lemma linspace_at_last (start stop : Q) (div : nat) :
  (0 < div)%nat -> linspace_at start stop div div == stop.
Proof.
  intros Hd. unfold linspace_at. field.
  intros K. change 0 with (inject_Z 0) in K.
  apply (proj1 (inject_Z_injective _ _)) in K. lia.
Qed.

Lemma linspace_spec (start stop : Q) (num : Z) :
  (0 <= num)%Z -> ((2 <= num)%Z -> ~ stop == start) ->
  exists l, linspace start stop num = Ok l /\
            List.length l = Z.to_nat num /\ NoDup l.
Proof.
  intros Hnum Hne. unfold linspace.
  destruct (num <? 0)%Z eqn:E; [apply Z.ltb_lt in E; lia|].
  destruct (Z.to_nat num) as [|[|div]] eqn:En.
  - exists []. repeat split. constructor.
  - exists [start]. repeat split. constructor; [intros [] | constructor].
  - set (d := S div) in *.
    assert (Hd : (0 < d)%nat) by (unfold d; lia).
    assert (Hne' : ~ stop == start) by (apply Hne; lia).
    eexists. split; [reflexivity|]. split.
    + rewrite length_app, length_map, length_seq. simpl. lia.
    + apply NoDup_app.
      * apply Finite.Injective_map_NoDup; [|apply seq_NoDup].
        intros i j Hij. apply (@linspace_at_inj start stop d); auto.
        now rewrite Hij.
      * constructor; [intros [] | constructor].
      * intros a Hin [Ha | []]. subst a. apply in_map_iff in Hin.
        destruct Hin as (i & Hi & Hin). apply in_seq in Hin.
        assert (i = d); [|lia].
        apply (@linspace_at_inj start stop d); auto.
        rewrite Hi. symmetry. now apply linspace_at_last.
Qed.

Lemma onsets_all_spec (e : Z) :
  (0 <= e)%Z ->
  exists l, onsets_all e = Ok l /\ List.length l = Z.to_nat e /\ NoDup l.
Proof.
  intros He. unfold onsets_all. apply linspace_spec; auto.
  intros H2 K. unfold burn_in, event_duration, isi in K.
  apply (proj1 (inject_Z_injective _ _)) in K. lia.
Qed.

Lemma slice_prefix {A} (t : list A) (h : Z) :
  (0 <= h <= Z.of_nat (List.length t))%Z ->
  slice t None (Some h) = firstn (Z.to_nat h) t.
Proof.
  intros Hh. unfold slice, clamp.
  destruct (h <? 0)%Z eqn:E; [apply Z.ltb_lt in E; lia|].
  rewrite Z.min_l by lia. simpl. now rewrite Z.sub_0_r.
Qed.

Lemma slice_suffix {A} (t : list A) (l : Z) :
  (0 <= l <= Z.of_nat (List.length t))%Z ->
  slice t (Some l) None = skipn (Z.to_nat l) t.
Proof.
  intros Hl. unfold slice, clamp.
  destruct (l <? 0)%Z eqn:E; [apply Z.ltb_lt in E; lia|].
  rewrite Z.min_l by lia.
  apply firstn_all2. rewrite length_skipn. lia.
Qed.

Lemma count_occ_repeat (a b : Z) (n : nat) :
  count_occ Z.eq_dec (repeat a n) b = if Z.eq_dec a b then n else 0%nat.
Proof.
  induction n as [|n IH]; simpl.
  - now destruct (Z.eq_dec a b).
  - destruct (Z.eq_dec a b); auto.
Qed.

Lemma nodup_app_disjoint {A} (l1 l2 : list A) (x : A) :
  NoDup (l1 ++ l2) -> In x l1 -> In x l2 -> False.
Proof.
  induction l1 as [|a l1 IH]; simpl; intros Hnd H1 H2; [contradiction|].
  inversion Hnd as [|? ? Hnotin Hnd']; subst.
  destruct H1 as [-> | H1].
  - apply Hnotin. apply in_or_app. now right.
  - now apply IH.
Qed.

(** C9: [events] is even whatever [total_time] is; when it is not negative
    [np.linspace] returns that many onsets, and for every way of shuffling
    them [onsets_A] and [onsets_B] split the shuffled array into two
    disjoint halves of [events / 2] onsets each, so the label vector holds
    as many 1s as 0s.  (A negative [events] makes [np.linspace] raise.) *)
Theorem trial_counts_balanced (tt : Z) :
  Z.even (events tt) = true /\
  ((events tt < 0)%Z -> onsets_all (events tt) = Raise ValueError) /\
  ((0 <= events tt)%Z ->
   exists all, onsets_all (events tt) = Ok all /\
     forall shuffled, Permutation all shuffled ->
       let A := onsets_A (events tt) shuffled in
       let B := onsets_B (events tt) shuffled in
       A ++ B = shuffled /\
       (forall x, In x A -> ~ In x B) /\
       trials_count A = (events tt / 2)%Z /\
       trials_count B = (events tt / 2)%Z /\
       count_occ Z.eq_dec (input_labels A B) 1%Z =
       count_occ Z.eq_dec (input_labels A B) 0%Z).
Proof.
  split; [apply events_even|]. split.
  - intros Hneg. unfold onsets_all, linspace.
    apply Z.ltb_lt in Hneg. now rewrite Hneg.
  - intros Hpos.
    destruct (onsets_all_spec _ Hpos) as (all & Hall & Hlen & Hnd).
    exists all. split; [exact Hall|]. intros shuffled Hperm A B.
    pose proof (events_even tt) as Hev. apply Z.even_spec in Hev.
    destruct Hev as [k Hk].
    assert (Hh : int_div (events tt) 2 = k)
      by (unfold int_div; rewrite Hk, Z.mul_comm; apply Z.quot_mul; lia).
    assert (Hl : List.length shuffled = Z.to_nat (events tt))
      by (rewrite <- Hlen; symmetry; now apply Permutation_length).
    assert (HA : A = firstn (Z.to_nat k) shuffled).
    { unfold A, onsets_A. rewrite Hh. apply slice_prefix. lia. }
    assert (HB : B = skipn (Z.to_nat k) shuffled).
    { unfold B, onsets_B. rewrite Hh. apply slice_suffix. lia. }
    assert (Hdiv : (events tt / 2 = k)%Z)
      by (rewrite Hk, Z.mul_comm; apply Z.div_mul; lia).
    assert (HlA : List.length A = Z.to_nat k)
      by (rewrite HA, length_firstn; lia).
    assert (HlB : List.length B = Z.to_nat k)
      by (rewrite HB, length_skipn; lia).
    split; [rewrite HA, HB; apply firstn_skipn|].
    split.
    { intros x HxA HxB.
      assert (Hnd' : NoDup (A ++ B)).
      { rewrite HA, HB, firstn_skipn.
        now apply (Permutation_NoDup Hperm). }
      eapply nodup_app_disjoint; eassumption. }
    unfold trials_count. rewrite HlA, HlB, Hdiv.
    split; [lia|]. split; [lia|].
    unfold input_labels, list_repeat, trials_count.
    rewrite HlA, HlB, !count_occ_app, !count_occ_repeat, !Nat2Z.id.
    destruct (Z.eq_dec 1 1), (Z.eq_dec 1 0), (Z.eq_dec 0 1), (Z.eq_dec 0 0);
      try lia; congruence.
Qed.

Lemma trial_counts_balanced_witness :
  exists all, onsets_all (events 43) = Ok all /\
     forall shuffled, Permutation all shuffled ->
       let A := onsets_A (events 43) shuffled in
       let B := onsets_B (events 43) shuffled in
       A ++ B = shuffled /\
       (forall x, In x A -> ~ In x B) /\
       trials_count A = (events 43 / 2)%Z /\
       trials_count B = (events 43 / 2)%Z /\
       count_occ Z.eq_dec (input_labels A B) 1%Z =
       count_occ Z.eq_dec (input_labels A B) 0%Z.
Proof.
  apply (proj2 (proj2 (trial_counts_balanced 43))). vm_compute. discriminate.
Defined.

(** *** Cell 19: the effect-size loop *)

Lemma setitem_middle (done rest : list Q) (old v : Q) :
  setitem (done ++ old :: rest) (List.length done) v = Ok (done ++ v :: rest).
Proof.
  induction done as [|d done IH]; simpl; [reflexivity|]. now rewrite IH.
Qed.

Lemma index_middle {A B} (f : A -> B) (pre rest : list A) (c : A) :
  index (map f (pre ++ c :: rest)) (Z.of_nat (List.length pre)) = Ok (f c).
Proof.
  apply index_nat. rewrite map_app. simpl.
  rewrite nth_error_app2 by (rewrite length_map; lia).
  now rewrite length_map, Nat.sub_diag.
Qed.

(** The loop, started after [pre] has been handled and [done] written,
    writes exactly what the gather yields on the remaining coordinates. *)
Lemma loop_gather_from (es : Q) (tsd : arr3) (cs rest : list (nat * nat * nat)) :
  forall (pre : list (nat * nat * nat)) (done : list Q),
  cs = pre ++ rest -> List.length done = List.length pre ->
  for_each
    (loop_pass es tsd
       (map (fun c => fst (fst c)) cs, map (fun c => snd (fst c)) cs, map snd cs))
    (done ++ repeat 0 (List.length rest))
    (seq (List.length pre) (List.length rest))
  = and_then (gather es tsd rest) (fun vs => Ok (done ++ vs)).
Proof.
  induction rest as [|[[x y] z] rest IH]; intros pre done Hcs Hlen.
  - simpl. reflexivity.
  - simpl. unfold loop_pass at 1. simpl fst; simpl snd. subst cs.
    rewrite !index_middle. simpl.
    destruct (getitem3 tsd x y z) as [v|e]; simpl; [|reflexivity].
    rewrite <- Hlen, setitem_middle. simpl.
    specialize (IH (pre ++ [(x, y, z)]) (done ++ [es * v])).
    rewrite <- app_assoc in IH. simpl in IH.
    rewrite !length_app in IH. simpl in IH.
    rewrite <- app_assoc in IH. simpl in IH.
    rewrite Hlen, Nat.add_1_r in *. rewrite IH by (auto; lia).
    destruct (gather es tsd rest); simpl; [|reflexivity].
    now rewrite <- app_assoc.
Qed.

Lemma loop_gather (es : Q) (tsd : arr3) (cs : list (nat * nat * nat)) :
  for_each
    (loop_pass es tsd
       (map (fun c => fst (fst c)) cs, map (fun c => snd (fst c)) cs, map snd cs))
    (repeat 0 (List.length cs)) (seq 0 (List.length cs))
  = gather es tsd cs.
Proof.
  pose proof (@loop_gather_from es tsd cs cs [] [] eq_refl eq_refl) as H.
  simpl in H. rewrite H. now destruct (gather es tsd cs).
Qed.

Lemma flat_map_ext_in {A B} (f g : A -> list B) (l : list A) :
  (forall a, In a l -> f a = g a) -> flat_map f l = flat_map g l.
Proof.
  induction l as [|a l IH]; simpl; intros H; [reflexivity|].
  rewrite H by now left. rewrite IH; [reflexivity|].
  intros b Hb. apply H. now right.
Qed.

Lemma in_enum {A} (l : list A) (p : nat * A) : In p (enum l) -> In (snd p) l.
Proof.
  destruct p as [i a]. unfold enum. intros H. now apply in_combine_r in H.
Qed.

Lemma binary_entry (v : Q) :
  Qeq_bool v 0 || Qeq_bool v 1 = true ->
  Qeq_bool v 1 = nonzero v /\ (v == 0 \/ v == 1).
Proof.
  unfold nonzero. intros H.
  destruct (Qeq_bool v 0) eqn:E0; simpl in *.
  - apply Qeq_bool_iff in E0. split; [|now left].
    destruct (Qeq_bool v 1) eqn:E1; [|reflexivity].
    apply Qeq_bool_iff in E1. rewrite E0 in E1. discriminate.
  - split; [assumption|]. right. now apply Qeq_bool_iff.
Qed.

Lemma where_coords_binary (a : arr3) :
  binary a = true ->
  where_coords (fun v => Qeq_bool v 1) a = where_coords nonzero a.
Proof.
  unfold binary, where_coords. intros Hb.
  apply flat_map_ext_in. intros xp Hxp. apply in_enum in Hxp.
  apply flat_map_ext_in. intros yr Hyr. apply in_enum in Hyr.
  apply flat_map_ext_in. intros zv Hzv. apply in_enum in Hzv.
  rewrite forallb_forall in Hb. specialize (Hb _ Hxp).
  rewrite forallb_forall in Hb. specialize (Hb _ Hyr).
  rewrite forallb_forall in Hb. specialize (Hb _ Hzv).
  apply binary_entry in Hb. destruct Hb as [Hb _]. now rewrite Hb.
Qed.

(** On a 0/1 row the running sum grows by the number of entries equal
    to 1, which is the number of coordinates [np.where] reports. *)
Lemma row_sum_count {C} (mk : nat -> C) (row : list Q) :
  forallb (fun v => Qeq_bool v 0 || Qeq_bool v 1) row = true ->
  forall (s : nat) (acc : Q),
  fold_right Qplus acc row ==
  acc + inject_Z (Z.of_nat (List.length
          (flat_map (fun zv : nat * Q =>
                       if Qeq_bool (snd zv) 1 then [mk (fst zv)] else [])
                    (combine (seq s (List.length row)) row)))).
Proof.
  induction row as [|v row IH]; simpl; intros Hb s acc; [ring|].
  apply andb_true_iff in Hb. destruct Hb as [Hv Hb].
  rewrite length_app, Nat2Z.inj_add, inject_Z_plus, (IH Hb (S s) acc).
  apply binary_entry in Hv. destruct Hv as [_ [Hv | Hv]].
  - assert (E : Qeq_bool v 1 = false).
    { destruct (Qeq_bool v 1) eqn:E; [|reflexivity].
      apply Qeq_bool_iff in E. rewrite Hv in E. discriminate. }
    rewrite E. simpl. rewrite Hv. ring.
  - rewrite (Qeq_eq_bool _ _ Hv). simpl. rewrite Hv. ring.
Qed.

Lemma plane_sum_count (x : nat) (plane : list (list Q)) :
  forallb (forallb (fun v => Qeq_bool v 0 || Qeq_bool v 1)) plane = true ->
  forall (s : nat) (acc : Q),
  fold_right (fun row acc' => fold_right Qplus acc' row) acc plane ==
  acc + inject_Z (Z.of_nat (List.length
          (flat_map (fun yr : nat * list Q =>
             flat_map (fun zv : nat * Q =>
                         if Qeq_bool (snd zv) 1
                         then [(x, fst yr, fst zv)] else [])
                      (enum (snd yr)))
             (combine (seq s (List.length plane)) plane)))).
Proof.
  induction plane as [|row plane IH]; simpl; intros Hb s acc; [ring|].
  apply andb_true_iff in Hb. destruct Hb as [Hr Hb].
  rewrite length_app, Nat2Z.inj_add, inject_Z_plus.
  unfold enum at 1.
  rewrite (row_sum_count (fun z => (x, s, z)) row Hr 0), (IH Hb (S s) acc).
  ring.
Qed.

Lemma arr_sum_count_from (a : arr3) :
  binary a = true ->
  forall (s : nat) (acc : Q),
  fold_right (fun plane acc0 =>
    fold_right (fun row acc' => fold_right Qplus acc' row) acc0 plane) acc a ==
  acc + inject_Z (Z.of_nat (List.length
          (flat_map (fun xp : nat * list (list Q) =>
             flat_map (fun yr : nat * list Q =>
               flat_map (fun zv : nat * Q =>
                           if Qeq_bool (snd zv) 1
                           then [(fst xp, fst yr, fst zv)] else [])
                        (enum (snd yr)))
               (enum (snd xp)))
             (combine (seq s (List.length a)) a)))).
Proof.
  unfold binary.
  induction a as [|plane a IH]; simpl; intros Hb s acc; [ring|].
  apply andb_true_iff in Hb. destruct Hb as [Hp Hb].
  rewrite length_app, Nat2Z.inj_add, inject_Z_plus.
  unfold enum at 2.
  rewrite (plane_sum_count s plane Hp 0), (IH Hb (S s) acc).
  ring.
Qed.

Lemma arr_sum_count (a : arr3) :
  binary a = true ->
  arr_sum a ==
  inject_Z (Z.of_nat (List.length (where_coords (fun v => Qeq_bool v 1) a))).
Proof.
  intros Hb. unfold arr_sum, where_coords, enum at 3.
  rewrite (arr_sum_count_from a Hb 0 0). ring.
Qed.

Lemma int_of_nat (q : Q) (n : nat) :
  q == inject_Z (Z.of_nat n) -> int_of q = Z.of_nat n.
Proof.
  intros H. unfold int_of.
  assert (E : Qle_bool 0 q = true).
  { apply Qle_bool_iff. rewrite H. change 0 with (inject_Z 0).
    rewrite <- Zle_Qle. lia. }
  rewrite E, (Qfloor_comp _ _ H). apply Qfloor_Z.
Qed.

Lemma gather_entries (es : Q) (tsd : arr3) (cs : list (nat * nat * nat)) :
  forall r, gather es tsd cs = Ok r ->
  List.length r = List.length cs /\
  forall i x y z, nth_error cs i = Some (x, y, z) ->
    exists w v, getitem3 tsd x y z = Ok w /\
                nth_error r i = Some v /\ v == es * w.
Proof.
  induction cs as [|[[x0 y0] z0] cs IH]; simpl; intros r Hr.
  - inversion Hr; subst. split; [reflexivity|].
    intros [|i] x y z H; discriminate.
  - destruct (getitem3 tsd x0 y0 z0) as [w0|] eqn:G; simpl in Hr; [|discriminate].
    destruct (gather es tsd cs) as [vs|] eqn:Gs; simpl in Hr; [|discriminate].
    inversion Hr; subst. destruct (IH vs eq_refl) as [Hlen Hent].
    split; [simpl; now rewrite Hlen|].
    intros [|i] x y z H; simpl in H.
    + inversion H; subst. exists w0, (es * w0). repeat split; auto.
    + now apply Hent.
Qed.

Lemma gather_total (es : Q) (tsd : arr3) (cs : list (nat * nat * nat)) :
  (forall x y z, In (x, y, z) cs -> is_ok (getitem3 tsd x y z) = true) ->
  exists r, gather es tsd cs = Ok r.
Proof.
  induction cs as [|[[x0 y0] z0] cs IH]; simpl; intros H.
  - now exists [].
  - pose proof (H x0 y0 z0 (or_introl eq_refl)) as H0.
    destruct (getitem3 tsd x0 y0 z0) as [w0|]; [|discriminate]. simpl.
    destruct IH as [vs Hvs]; [intros; apply H; now right|].
    rewrite Hvs. simpl. eauto.
Qed.

Lemma signal_change_binary (es : Q) (sv tsd : arr3) :
  binary sv = true ->
  signal_change es sv tsd = vectorized_gather es sv tsd.
Proof.
  intros Hb. unfold signal_change, vectorized_gather, np_where, zeros_col, range0.
  rewrite (int_of_nat _ _ (arr_sum_count sv Hb)).
  destruct (Z.of_nat _ <? 0)%Z eqn:E; [apply Z.ltb_lt in E; lia|].
  simpl. rewrite Nat2Z.id, loop_gather. now rewrite where_coords_binary.
Qed.

(** C8, as the specification states it for every signal volume, fails:
    with voxel values 2, 1, -2, 1, -1 the sum is 1, so the loop fills one
    entry, from the first voxel equal to 1, while there are five nonzero
    voxels and the first of them is another one. *)
Lemma loop_is_gather_counterexample :
  ~ loop_is_gather 1 [[[2; 1; -2; 1; -1]]] [[[5; 7; 9; 11; 13]]].
Proof.
  intros H. destruct (H [1 * 7] eq_refl) as [Hlen _]. discriminate Hlen.
Qed.

(** On the same input the loop does not return the gather over the voxels
    equal to 1 either: that one has two entries. *)
Example loop_is_not_gather_of_ones :
  signal_change 1 [[[2; 1; -2; 1; -1]]] [[[5; 7; 9; 11; 13]]] = Ok [1 * 7] /\
  gather 1 [[[5; 7; 9; 11; 13]]]
         (where_coords (fun v => Qeq_bool v 1) [[[2; 1; -2; 1; -1]]])
  = Ok [1 * 7; 1 * 11] /\
  vectorized_gather 1 [[[2; 1; -2; 1; -1]]] [[[5; 7; 9; 11; 13]]]
  = Ok [1 * 5; 1 * 7; 1 * 9; 1 * 11; 1 * 13].
Proof. repeat split. Qed.

(** C8, amended: when every voxel of [signal_volume] is 0 or 1 the loop
    returns what the vectorised gather over the nonzero voxels returns
    (the same array, or the same IndexError), its result is that gather
    entry for entry, and it does return an array whenever [temporal_sd]
    covers the nonzero voxels. *)
Theorem signal_change_is_gather (es : Q) (sv tsd : arr3) :
  binary sv = true ->
  signal_change es sv tsd = vectorized_gather es sv tsd /\
  loop_is_gather es sv tsd /\
  ((forall x y z, In (x, y, z) (where_coords nonzero sv) ->
                  is_ok (getitem3 tsd x y z) = true) ->
   exists r, signal_change es sv tsd = Ok r).
Proof.
  intros Hb. pose proof (signal_change_binary es sv tsd Hb) as E.
  split; [exact E|]. split.
  - intros r Hr. rewrite E in Hr. unfold entrywise_gather.
    now apply gather_entries.
  - intros Hcov. rewrite E. now apply gather_total.
Qed.

Lemma signal_change_is_gather_witness :
  signal_change 1 [[[0; 1]; [1; 1]]] [[[5; 7]; [9; 11]]]
  = vectorized_gather 1 [[[0; 1]; [1; 1]]] [[[5; 7]; [9; 11]]] /\
  loop_is_gather 1 [[[0; 1]; [1; 1]]] [[[5; 7]; [9; 11]]] /\
  ((forall x y z, In (x, y, z) (where_coords nonzero [[[0; 1]; [1; 1]]]) ->
                  is_ok (getitem3 [[[5; 7]; [9; 11]]] x y z) = true) ->
   exists r, signal_change 1 [[[0; 1]; [1; 1]]] [[[5; 7]; [9; 11]]] = Ok r).
Proof.
  apply (@signal_change_is_gather 1 [[[0; 1]; [1; 1]]] [[[5; 7]; [9; 11]]]).
  reflexivity.
Defined.


(** *** Running the notebook *)

Import Script.

Section Rules.

Variable w : world.

Lemma calls_in_app (a b : list event) :
  calls_in (a ++ b) = calls_in a ++ calls_in b.
Proof.
  induction a as [|[f args|x v|t i v] a IH]; simpl; auto. now rewrite IH.
Qed.

Lemma before_call_app (k : nat) (a b : list event) :
  before_call k (a ++ b)
  = if (k <? List.length (calls_in a))%nat then before_call k a
    else a ++ before_call (k - List.length (calls_in a)) b.
Proof.
  revert k. induction a as [|[f args|x v|t i v] a IH]; intros k; simpl.
  - now rewrite Nat.sub_0_r.
  - destruct k as [|k]; [reflexivity|]. rewrite IH.
    change (S k <? S (List.length (calls_in a)))%nat
      with (k <? List.length (calls_in a))%nat.
    simpl. now destruct (k <? List.length (calls_in a))%nat.
  - rewrite IH. now destruct (k <? List.length (calls_in a))%nat.
  - rewrite IH. now destruct (k <? List.length (calls_in a))%nat.
Qed.

Lemma calls_in_flat_map (bevs : nat -> list event) (idxs : list nat) :
  (forall i, calls_in (bevs i) = []) -> calls_in (flat_map bevs idxs) = [].
Proof.
  intros H. induction idxs as [|i idxs IH]; simpl; auto.
  now rewrite calls_in_app, H, IH.
Qed.

(** A step that makes no call and cannot fail. *)
Lemma runs_quiet {A} (c : nat) (m : M A) (evs : list event) (a : A) :
  (forall s, m s = (Ok a, State (count s) (rev evs ++ trace s))) ->
  calls_in evs = [] ->
  runs w c m evs [] 0 a.
Proof.
  intros Hm Hcs. split; [now rewrite Hcs|]. split; [reflexivity|].
  intros [n t] Hs. simpl in Hs. subst n. rewrite Hcs. simpl. split.
  - intros _. now rewrite Hm, Nat.add_0_r.
  - intros k e Hk. inversion Hk.
Qed.

Lemma runs_ret {A} (c : nat) (a : A) : runs w c (ret a) [] [] 0 a.
Proof. apply runs_quiet; [intros [n t]|]; reflexivity. Qed.

Lemma runs_lift {A} (c : nat) (a : A) : runs w c (lift (Ok a)) [] [] 0 a.
Proof. apply runs_quiet; [intros [n t]|]; reflexivity. Qed.

Lemma runs_log (c : nat) (x : string) (v : val) :
  runs w c (log (Assign x v)) [Assign x v] [] 0 tt.
Proof. apply runs_quiet; [intros [n t]|]; reflexivity. Qed.

Lemma runs_index {A} (c : nat) (t : list A) (i : Z) (a : A) :
  (0 <= i)%Z -> nth_error t (Z.to_nat i) = Some a ->
  runs w c (lift (index t i)) [] [] 0 a.
Proof.
  intros H0 Hi. rewrite <- (Z2Nat.id i H0), (index_nat t _ a Hi).
  apply runs_lift.
Qed.

Lemma runs_step (c : nat) (z : Z) :
  z <> 0%Z -> runs w c (nonzero_step z) [] [] 0 z.
Proof.
  intros Hz. unfold nonzero_step.
  destruct (z =? 0)%Z eqn:E; [apply Z.eqb_eq in E; contradiction|].
  apply runs_lift.
Qed.

Lemma runs_call (c : nat) (f : string) (args : list val) :
  runs w c (call w f args) [Call f args] [(f, args)] 1 (VRes c).
Proof.
  split; [reflexivity|]. split; [reflexivity|].
  intros [n t] Hs. simpl in Hs. subst n. unfold call. simpl. split.
  - intros Hq. rewrite (Hq c) by lia. now rewrite Nat.add_1_r.
  - intros k e Hk Hq He. assert (k = 0)%nat by lia. subst k.
    rewrite Nat.add_0_r in *. now rewrite He.
Qed.

Lemma runs_meth (c : nat) (obj : val) (name : string) (args : list val) :
  runs w c (meth w obj name args)
       [Call ("." ++ name) (obj :: args)] [("." ++ name, obj :: args)%string] 1
       (VRes c).
Proof. apply runs_call. Qed.

Lemma runs_bind {A B} (c : nat) (m : M A) (k : A -> M B)
    (evs1 evs2 : list event) (cs1 cs2 : list (string * list val))
    (n1 n2 : nat) (a : A) (b : B) :
  runs w c m evs1 cs1 n1 a ->
  runs w (c + n1) (k a) evs2 cs2 n2 b ->
  runs w c (bind m k) (evs1 ++ evs2) (cs1 ++ cs2) (n1 + n2) b.
Proof.
  intros (Hc1 & Hn1 & H1) (Hc2 & Hn2 & H2).
  split; [now rewrite calls_in_app, Hc1, Hc2|].
  split; [now rewrite length_app, Hn1, Hn2|].
  subst cs1 cs2. intros s Hs. unfold bind.
  destruct (H1 s Hs) as [Hok1 Hf1].
  rewrite calls_in_app, length_app.
  set (l1 := List.length (calls_in evs1)) in *.
  set (l2 := List.length (calls_in evs2)) in *.
  split.
  - intros Hq. rewrite Hok1 by (intros j Hj; apply Hq; lia).
    destruct (H2 (State (c + l1) (rev evs1 ++ trace s))) as [Hok2 _];
      [simpl; lia|].
    rewrite Hok2 by (intros j Hj; apply Hq; lia). simpl.
    now rewrite rev_app_distr, <- app_assoc, Nat.add_assoc, Hn1.
  - intros j e Hj Hq He. rewrite before_call_app. fold l1.
    destruct (j <? l1)%nat eqn:E.
    + apply Nat.ltb_lt in E. now rewrite (Hf1 j e E Hq He).
    + apply Nat.ltb_ge in E.
      rewrite Hok1 by (intros i Hi; apply Hq; lia).
      destruct (H2 (State (c + l1) (rev evs1 ++ trace s))) as [_ Hf2];
        [simpl; lia|].
      rewrite (Hf2 (j - l1)%nat e);
        [| lia | intros i Hi; apply Hq; lia
         | rewrite <- He; f_equal; lia].
      simpl. rewrite rev_app_distr, <- app_assoc. do 2 f_equal. lia.
Qed.

Lemma runs_set (c : nat) (x : string) (m : M val) (evs : list event)
    (cs : list (string * list val)) (n : nat) (v : val) :
  runs w c m evs cs n v ->
  runs w c (set x m) (evs ++ [Assign x v]) cs n v.
Proof.
  intros H. unfold set.
  pose proof (runs_bind c m (fun v => bind (log (Assign x v)) (fun _ => ret v))
                _ _ _ _ _ _ v v H
                (runs_bind (c + n) (log (Assign x v)) (fun _ => ret v)
                   _ _ _ _ _ _ tt v (runs_log _ x v) (runs_ret _ v))) as R.
  simpl in R. now rewrite app_nil_r, Nat.add_0_r in R.
Qed.

Lemma for_runs (body : nat -> M unit) (bevs : nat -> list event) :
  (forall i s, body i s = (Ok tt, State (count s) (rev (bevs i) ++ trace s))) ->
  forall idxs s,
    for_ idxs body s
    = (Ok tt, State (count s) (rev (flat_map bevs idxs) ++ trace s)).
Proof.
  intros Hb. induction idxs as [|i idxs IH]; intros [n t]; simpl.
  - reflexivity.
  - unfold bind. rewrite Hb, IH. simpl.
    now rewrite rev_app_distr, <- app_assoc.
Qed.

Lemma runs_loop (c : nat) (si sc tsd : val) (idxs : list nat) :
  runs w c (for_ idxs (loop_body si sc tsd))
       (flat_map (loop_events si sc tsd) idxs) [] 0 tt.
Proof.
  apply runs_quiet.
  - apply for_runs. intros i [n t]. reflexivity.
  - apply calls_in_flat_map. reflexivity.
Qed.

Lemma runs_if (c : nat) (b : bool) (x : string) (v : val) (a1 a2 : Q) :
  runs w c (if b then bind (set x (ret v)) (fun _ => ret a1) else ret a2)
       (if b then [Assign x v] else []) [] 0 (if b then a1 else a2).
Proof.
  destruct b; apply runs_quiet; try reflexivity; intros [n t]; reflexivity.
Qed.

End Rules.

(** Symbolic execution of a program in [M]: solves [runs w c m ?evs ?cs ?n
    ?a], finding the events, the calls and the result. *)
Ltac head_of t :=
  lazymatch t with
  | ?f _ => head_of f
  | _ => t
  end.

Ltac tidy :=
  cbn beta iota zeta delta
    [fst snd v_home volume dim dimsize tr mask template noise_dict
     coordinates signal_volume v_total_time v_onsets_A v_onsets_B
     stimfunc_A weights_all signal Nat.add].

Ltac run_all :=
  lazymatch goal with
  | |- runs _ _ (bind _ _) _ _ _ _ =>
      eapply runs_bind; [run_all | tidy; run_all]
  | |- runs _ _ (ret _) _ _ _ _ => apply runs_ret
  | |- runs _ _ (call _ _ _) _ _ _ _ => apply runs_call
  | |- runs _ _ (meth _ _ _ _) _ _ _ _ => apply runs_meth
  | |- runs _ _ (set _ _) _ _ _ _ => eapply runs_set; run_all
  | |- runs _ _ (log (Assign _ _)) _ _ _ _ => apply runs_log
  | |- runs _ _ (for_ _ _) _ _ _ _ => apply runs_loop
  | |- runs _ _ (if _ then _ else _) _ _ _ _ => apply runs_if
  | |- runs _ _ (nonzero_step _) _ _ _ _ => apply runs_step; assumption
  | |- runs _ _ (lift (index _ _)) _ _ _ _ =>
      eapply runs_index; [discriminate | eassumption]
  | |- runs _ _ ?m _ _ _ _ =>
      let h := head_of m in unfold h; tidy; run_all
  end.

Lemma runnable_geometry (w : world) :
  runnable w ->
  exists z0 z1 z2 z3 d3,
    nth_error (zooms w) 0 = Some z0 /\ nth_error (zooms w) 1 = Some z1 /\
    nth_error (zooms w) 2 = Some z2 /\ nth_error (zooms w) 3 = Some z3 /\
    nth_error (shape w) 3 = Some d3 /\ int_of (normalize_tr z3) <> 0%Z.
Proof.
  intros (Hs & Hz & Ht).
  destruct (zooms w) as [|z0 [|z1 [|z2 [|z3 zr]]]] eqn:Ez; simpl in Hz; try lia.
  destruct (shape w) as [|d0 [|d1 [|d2 [|d3 dr]]]] eqn:Es; simpl in Hs; try lia.
  exists z0, z1, z2, z3, d3. repeat split; try reflexivity.
  apply Ht. unfold tr_of_zooms.
  pose proof (index_nat (z0 :: z1 :: z2 :: z3 :: zr) 3 z3 eq_refl) as E.
  simpl Z.of_nat in E. now rewrite E.
Qed.

Local Open Scope string_scope.

(** *** Complete runs *)

Lemma sample_world_runnable : runnable sample_world.
Proof.
  repeat split; simpl; try lia.
  intros t Ht. vm_compute in Ht. inversion Ht. discriminate.
Qed.

Lemma sample_world_quiet : quiet sample_world.
Proof. intros k. reflexivity. Qed.

(** Symbolic execution of the whole notebook in a runnable world: leaves
    [Hex : executes w 0 (notebook w) E out], where [E] stands for the
    events spelled out, and [Hcs : C = calls_in E], where [C] stands for
    the calls among them. *)
Ltac run_notebook w Hr :=
  let z0 := fresh "z0" in let z1 := fresh "z1" in let z2 := fresh "z2" in
  let z3 := fresh "z3" in let d3 := fresh "d3" in
  let H0 := fresh "H0" in let H1 := fresh "H1" in let H2 := fresh "H2" in
  let H3 := fresh "H3" in let Hd := fresh "Hd" in let Ht := fresh "Ht" in
  destruct (runnable_geometry w Hr)
    as (z0 & z1 & z2 & z3 & d3 & H0 & H1 & H2 & H3 & Hd & Ht);
  (eassert (Hrun : runs w 0 (notebook w) _ _ _ _) by run_all);
  match type of Hrun with
  | runs _ _ _ ?evs ?cs _ _ => set (E := evs) in *; set (C := cs) in *
  end;
  destruct Hrun as (Hcs & Hn & Hex).

Lemma executes_run (w : world) (evs : list event) (out : outputs) :
  executes w 0 (notebook w) evs out -> quiet w ->
  run w = (Ok out, State (List.length (calls_in evs)) (rev evs)).
Proof.
  intros H Hq. destruct (H (State 0 []) eq_refl) as [Hok _].
  unfold run. rewrite Hok by (intros; apply Hq). simpl.
  now rewrite app_nil_r.
Qed.

(** Finishes a goal about a complete run once [run_notebook] has been
    used: gives the run and leaves the facts about its history. *)
Ltac complete_run w Hq :=
  match goal with
  | Hex : executes w 0 (notebook w) ?evs ?out |- _ =>
      exists out, (State (List.length (calls_in evs)) (rev evs));
      split; [exact (executes_run w evs out Hex Hq)|];
      unfold history, callees, callee_at, arg_at, kwarg_at, files_written;
      cbn [trace]; rewrite rev_involutive;
      match goal with Hcs : _ = calls_in evs |- _ => rewrite <- ?Hcs end
  end.

Lemma in_assigns (x : string) (v : val) (evs : list event) :
  In (Assign x v) evs -> In (x, v) (assigns_in evs).
Proof.
  induction evs as [|[f args|y u|t i u] evs IH]; simpl; intros H;
    try (destruct H as [H | H]; [discriminate | now apply IH]).
  - contradiction.
  - destruct H as [H | H]; [inversion H; now left | right; now apply IH].
Qed.

(** Looks an event up in the spelled-out events of a run. *)
Ltac find_event :=
  lazymatch goal with
  | |- In _ (_ ++ _) =>
      apply in_or_app; first [left; find_event | right; find_event]
  | |- In _ (_ :: _) => first [left; reflexivity | right; find_event]
  end.

Ltac assigned :=
  apply in_assigns;
  match goal with E := _ : list event |- In _ ?E' => subst E end;
  find_event.

(** C1: in a world where the notebook runs to its end, the calls are made
    in the order of the notebook; noise estimation ([mask_brain], then
    [calc_noise] on its mask) comes first, then signal and noise synthesis
    ([generate_signal], [convolve_hrf], [apply_signal], [generate_noise]
    with the estimated [noise_dict]), combined as [brain = signal + noise],
    and only then the t-test and the SVM; every call is given only results
    of earlier calls, and both analyses consume the two halves of [brain]. *)
Theorem stages_in_order (w : world) :
  runnable w -> quiet w ->
  exists out s,
    run w = (Ok out, s) /\
    callees (history s) = expected_calls /\
    callee_at (history s) 5 = Some "fmrisim.mask_brain" /\
    callee_at (history s) 6 = Some "fmrisim.calc_noise" /\
    kwarg_at (history s) 6 "mask" = Some (VItem (VRes 5) (VInt 0)) /\
    callee_at (history s) 12 = Some "fmrisim.generate_signal" /\
    callee_at (history s) 48 = Some "fmrisim.convolve_hrf" /\
    nth_error (calls_in (history s)) 56
      = Some ("fmrisim.apply_signal", [VRes 48; VRes 12]) /\
    callee_at (history s) 57 = Some "fmrisim.generate_noise" /\
    kwarg_at (history s) 57 "noise_dict" = Some (VRes 6) /\
    brain out = VOp "+" [VRes 56; VRes 57] /\
    callee_at (history s) 143 = Some "stats.ttest_1samp" /\
    callee_at (history s) 151 = Some "sklearn.svm.SVC" /\
    callee_at (history s) 152 = Some ".fit" /\
    scoped (calls_in (history s)) = true /\
    consumes (calls_in (history s)) 6 5 = true /\
    consumes (calls_in (history s)) 57 6 = true /\
    consumes (calls_in (history s)) 143 56 = true /\
    consumes (calls_in (history s)) 143 57 = true /\
    consumes (calls_in (history s)) 152 56 = true /\
    consumes (calls_in (history s)) 152 57 = true.
Proof.
  intros Hr Hq.
  run_notebook w Hr. complete_run w Hq.
  repeat apply conj; reflexivity.
Qed.

Lemma stages_in_order_witness :
  exists out s,
    run sample_world = (Ok out, s) /\
    callees (history s) = expected_calls /\
    callee_at (history s) 5 = Some "fmrisim.mask_brain" /\
    callee_at (history s) 6 = Some "fmrisim.calc_noise" /\
    kwarg_at (history s) 6 "mask" = Some (VItem (VRes 5) (VInt 0)) /\
    callee_at (history s) 12 = Some "fmrisim.generate_signal" /\
    callee_at (history s) 48 = Some "fmrisim.convolve_hrf" /\
    nth_error (calls_in (history s)) 56
      = Some ("fmrisim.apply_signal", [VRes 48; VRes 12]) /\
    callee_at (history s) 57 = Some "fmrisim.generate_noise" /\
    kwarg_at (history s) 57 "noise_dict" = Some (VRes 6) /\
    brain out = VOp "+" [VRes 56; VRes 57] /\
    callee_at (history s) 143 = Some "stats.ttest_1samp" /\
    callee_at (history s) 151 = Some "sklearn.svm.SVC" /\
    callee_at (history s) 152 = Some ".fit" /\
    scoped (calls_in (history s)) = true /\
    consumes (calls_in (history s)) 6 5 = true /\
    consumes (calls_in (history s)) 57 6 = true /\
    consumes (calls_in (history s)) 143 56 = true /\
    consumes (calls_in (history s)) 143 57 = true /\
    consumes (calls_in (history s)) 152 56 = true /\
    consumes (calls_in (history s)) 152 57 = true.
Proof.
  exact (stages_in_order sample_world sample_world_runnable sample_world_quiet).
Defined.

(** C2: each of the six steps is one call into a library: in a complete
    run [mask_brain], [calc_noise], [generate_noise], [convolve_hrf],
    [apply_signal] and [SVC] are each called exactly once (the noise
    helpers shown for illustration once each, the spatial one twice), and
    what the notebook keeps of each step is that call's result, passed on
    unchanged to the calls that need it. *)
Theorem steps_are_library_calls (w : world) :
  runnable w -> quiet w ->
  exists out s,
    run w = (Ok out, s) /\
    times "fmrisim.mask_brain" (callees (history s)) = 1%nat /\
    times "fmrisim.calc_noise" (callees (history s)) = 1%nat /\
    times "fmrisim.generate_noise" (callees (history s)) = 1%nat /\
    times "fmrisim.convolve_hrf" (callees (history s)) = 1%nat /\
    times "fmrisim.apply_signal" (callees (history s)) = 1%nat /\
    times "sklearn.svm.SVC" (callees (history s)) = 1%nat /\
    times "fmrisim._generate_noise_spatial" (callees (history s)) = 2%nat /\
    times "fmrisim._generate_noise_temporal_drift" (callees (history s)) = 1%nat /\
    times "fmrisim._generate_noise_temporal_autoregression"
          (callees (history s)) = 1%nat /\
    times "fmrisim._generate_noise_temporal_phys" (callees (history s)) = 1%nat /\
    times "fmrisim._generate_noise_temporal_task" (callees (history s)) = 1%nat /\
    times "fmrisim._generate_noise_system" (callees (history s)) = 1%nat /\
    callee_at (history s) 5 = Some "fmrisim.mask_brain" /\
    In ("mask", VItem (VRes 5) (VInt 0)) (assigns_in (history s)) /\
    In ("template", VItem (VRes 5) (VInt 1)) (assigns_in (history s)) /\
    callee_at (history s) 6 = Some "fmrisim.calc_noise" /\
    In ("noise_dict", VRes 6) (assigns_in (history s)) /\
    callee_at (history s) 48 = Some "fmrisim.convolve_hrf" /\
    In ("signal_func", VRes 48) (assigns_in (history s)) /\
    callee_at (history s) 56 = Some "fmrisim.apply_signal" /\
    In ("signal", VRes 56) (assigns_in (history s)) /\
    callee_at (history s) 57 = Some "fmrisim.generate_noise" /\
    In ("noise", VRes 57) (assigns_in (history s)) /\
    kwarg_at (history s) 57 "mask" = Some (VItem (VRes 5) (VInt 0)) /\
    kwarg_at (history s) 57 "template" = Some (VItem (VRes 5) (VInt 1)) /\
    kwarg_at (history s) 57 "noise_dict" = Some (VRes 6) /\
    arg_at (history s) 56 0 = Some (VRes 48) /\
    callee_at (history s) 151 = Some "sklearn.svm.SVC" /\
    arg_at (history s) 152 0 = Some (VRes 151) /\
    In ("clf", VRes 152) (assigns_in (history s)) /\
    clf out = VRes 152.
Proof.
  intros Hr Hq. run_notebook w Hr. complete_run w Hq.
  repeat apply conj; try reflexivity; assigned.
Qed.

Lemma steps_are_library_calls_witness :
  exists out s,
    run sample_world = (Ok out, s) /\
    times "fmrisim.mask_brain" (callees (history s)) = 1%nat /\
    times "fmrisim.generate_noise" (callees (history s)) = 1%nat /\
    clf out = VRes 152.
Proof.
  destruct (steps_are_library_calls sample_world sample_world_runnable
              sample_world_quiet) as (out & s & H).
  exists out, s. intuition.
Defined.

(** C4: the embedding is [manifold.MDS(n_components=2,
    dissimilarity='precomputed')] fitted on [squareform(pdist(...))] of
    the stacked, transposed trials, and [coords] is its [embedding_]; the
    score is [clf.score] on the test part of
    [train_test_split(input_mat, input_labels, test_size=0.2,
    random_state=0)], for [SVC(kernel='linear', C=1)] fitted on the
    training part; both are library results the notebook does not touch. *)
Theorem mds_svm_are_library_routines (w : world) :
  runnable w -> quiet w ->
  exists out s,
    run w = (Ok out, s) /\
    nth_error (calls_in (history s)) 130 = Some (".transpose", [trials_A out]) /\
    nth_error (calls_in (history s)) 131 = Some (".transpose", [trials_B out]) /\
    nth_error (calls_in (history s)) 132
      = Some ("np.vstack", [VList [VRes 130; VRes 131]]) /\
    nth_error (calls_in (history s)) 133 = Some ("sp_distance.pdist", [VRes 132]) /\
    nth_error (calls_in (history s)) 134
      = Some ("sp_distance.squareform", [VRes 133]) /\
    nth_error (calls_in (history s)) 135
      = Some ("manifold.MDS",
              [VKw "n_components" (VInt 2);
               VKw "dissimilarity" (VStr "precomputed")]) /\
    nth_error (calls_in (history s)) 136 = Some (".fit", [VRes 135; VRes 134]) /\
    coords out = VAttr (VRes 136) "embedding_" /\
    nth_error (calls_in (history s)) 147 = Some (".transpose", [trials_A out]) /\
    nth_error (calls_in (history s)) 148 = Some (".transpose", [trials_B out]) /\
    nth_error (calls_in (history s)) 149
      = Some ("np.vstack", [VList [VRes 147; VRes 148]]) /\
    nth_error (calls_in (history s)) 150
      = Some ("sklearn.model_selection.train_test_split",
              [VRes 149; input_labels out;
               VKw "test_size" (VNum (1 # 5)); VKw "random_state" (VInt 0)]) /\
    nth_error (calls_in (history s)) 151
      = Some ("sklearn.svm.SVC", [VKw "kernel" (VStr "linear"); VKw "C" (VInt 1)]) /\
    nth_error (calls_in (history s)) 152
      = Some (".fit", [VRes 151; VItem (VRes 150) (VInt 0);
                       VItem (VRes 150) (VInt 2)]) /\
    clf out = VRes 152 /\
    nth_error (calls_in (history s)) 153
      = Some (".score", [VRes 152; VItem (VRes 150) (VInt 1);
                         VItem (VRes 150) (VInt 3)]) /\
    score out = VRes 153 /\
    times "manifold.MDS" (callees (history s)) = 1%nat /\
    times ".score" (callees (history s)) = 1%nat.
Proof.
  intros Hr Hq. run_notebook w Hr. complete_run w Hq.
  repeat apply conj; reflexivity.
Qed.

Lemma mds_svm_are_library_routines_witness :
  exists out s,
    run sample_world = (Ok out, s) /\
    nth_error (calls_in (history s)) 135
      = Some ("manifold.MDS",
              [VKw "n_components" (VInt 2);
               VKw "dissimilarity" (VStr "precomputed")]) /\
    score out = VRes 153.
Proof.
  destruct (mds_svm_are_library_routines sample_world sample_world_runnable
              sample_world_quiet) as (out & s & H).
  exists out, s. intuition.
Defined.




(** *** Runs that stop at a failing call *)







(** *** Images with fewer than four dimensions *)

Lemma index_out {A} (t : list A) (i : nat) :
  (List.length t <= i)%nat -> index t (Z.of_nat i) = Raise IndexError.
Proof.
  intros H. unfold index.
  destruct (Z.of_nat i <? 0)%Z eqn:E; [apply Z.ltb_lt in E; lia|].
  rewrite E. simpl.
  destruct (Z.of_nat (List.length t) <=? Z.of_nat i)%Z eqn:F;
    [reflexivity | apply Z.leb_gt in F; lia].
Qed.

Lemma geometry_reads_ok_iff (dim : list Z) (dimsize : list Q) :
  List.length dimsize = List.length dim ->
  geometry_reads_ok dim dimsize = true <-> (4 <= List.length dim)%nat.
Proof.
  intros Hlen. unfold geometry_reads_ok, slice_in_bounds.
  rewrite !andb_true_iff.
  change 3%Z with (Z.of_nat 3) at 1 2.
  rewrite !index_ok_iff, Hlen, !Z.leb_le. lia.
Qed.

Lemma bind_ok {A B} (m : M A) (k : A -> M B) (s s' : state) (a : A) :
  m s = (Ok a, s') -> bind m k s = k a s'.
Proof. intros H. unfold bind. now rewrite H. Qed.

Lemma bind_raise {A B} (m : M A) (k : A -> M B) (s s' : state) (e : exn) :
  m s = (Raise e, s') -> bind m k s = (Raise e, s').
Proof. intros H. unfold bind. now rewrite H. Qed.

(** Evaluates one statement from a known state, given what the world
    answers to its calls. *)
Ltac eval_stmt :=
  unfold set, meth, bind, call, ret, log, lift;
  cbn [count trace raises zooms shape home];
  repeat match goal with
         | H : ?rs _ = _ |- context [?rs _] => rewrite H
         end;
  cbn [count trace]; reflexivity.

Ltac refute_quiet :=
  match goal with
  | Hq : forall k, ?rs k = None, R : ?rs _ = Some _ |- _ =>
      rewrite Hq in R; discriminate
  end.

(** Runs the statements of a program one after the other until one
    raises. *)
Ltac eval_until_raise :=
  repeat first
    [ erewrite bind_ok by eval_stmt
    | apply bind_raise; eval_stmt
    | apply bind_raise ].

(** C5: for an image whose header and data agree on the number of
    dimensions, the reads [dimsize[3]], [dim[3]] and [dim[0:3]] are all in
    bounds exactly when there are at least four dimensions; with fewer the
    run raises before [tr] is bound and before any call other than loading
    the image, and, if loading went well, it is the IndexError of
    [tr = dimsize[3]], right after [dimsize] was bound. *)
Theorem geometry_needs_four_dimensions (w : world) :
  List.length (zooms w) = List.length (shape w) ->
  (geometry_reads_ok (shape w) (zooms w) = true
   <-> (4 <= List.length (shape w))%nat) /\
  ((List.length (shape w) < 4)%nat ->
   exists e s,
     run w = (Raise e, s) /\
     incl (callees (history s))
          ["Path.home"; "nibabel.load"; ".get_data"; ".get_zooms"] /\
     ~ In "tr" (map fst (assigns_in (history s))) /\
     (quiet w ->
      e = IndexError /\
      callees (history s)
        = ["Path.home"; "nibabel.load"; ".get_data"; ".get_zooms"] /\
      map fst (assigns_in (history s))
        = ["home"; "nii"; "volume"; "dim"; "dimsize"])).
Proof.
  intros Hlen. split; [now apply geometry_reads_ok_iff|].
  intros Hshort. rewrite <- Hlen in Hshort. clear Hlen.
  destruct w as [h sh zs sm rs]. cbn [zooms shape] in *. unfold quiet.
  cbn [raises].
  assert (Hidx : index zs 3 = Raise IndexError)
    by (apply (index_out zs 3); lia).
  unfold run, notebook.
  destruct (rs 0%nat) as [e0|] eqn:R0;
    [|destruct (rs 1%nat) as [e1|] eqn:R1;
      [|destruct (rs 2%nat) as [e2|] eqn:R2;
        [|destruct (rs 3%nat) as [e3|] eqn:R3]]].
  all: eexists; eexists; (split; [unfold section1; eval_until_raise|]).
  all: unfold history, callees; cbn [trace rev app calls_in assigns_in map fst].
  all: repeat apply conj;
    try (intros f Hf; simpl in *; tauto);
    try (simpl; intuition discriminate);
    try (intros Hq; try refute_quiet; now repeat split).
Qed.

Lemma geometry_needs_four_dimensions_witness :
  geometry_reads_ok (shape flat_world) (zooms flat_world) = false /\
  exists s,
    run flat_world = (Raise IndexError, s) /\
    callees (history s)
      = ["Path.home"; "nibabel.load"; ".get_data"; ".get_zooms"].
Proof.
  split; [reflexivity|].
  destruct (geometry_needs_four_dimensions flat_world eq_refl) as [_ H].
  destruct H as (e & s & Hrun & _ & _ & Hq); [simpl; lia|].
  destruct Hq as (He & Hc & _); [intros k; reflexivity|].
  subst e. now exists s.
Defined.

(** *** What the notebook computes itself *)







(** *** The repetition time and the schedule inside the script *)

(** C10: the repetition time the notebook works with is the fourth zoom
    value itself when that value is at most 100 and that value divided by
    1000 when it exceeds 100; and in a complete run that normalised value
    is the one every later statement uses: [total_time], the exported
    epoch file, [convolve_hrf], [generate_noise], the time points and drift
    of cell 39, and the HRF lag of cell 47. *)
Theorem tr_unit_normalization (w : world) (z : Q) (dim3 : Z) :
  nth_error (zooms w) 3 = Some z ->
  nth_error (shape w) 3 = Some dim3 ->
  (z <= 100 -> tr_of_zooms (zooms w) = Ok z) /\
  (100 < z -> tr_of_zooms (zooms w) = Ok (z / 1000)) /\
  (runnable w -> quiet w ->
   exists t out s,
     tr_of_zooms (zooms w) = Ok t /\
     run w = (Ok out, s) /\
     In ("total_time", VInt (total_time dim3 t)) (assigns_in (history s)) /\
     kwarg_at (history s) 40 "tr_duration" = Some (VNum t) /\
     kwarg_at (history s) 48 "tr_duration" = Some (VNum t) /\
     kwarg_at (history s) 48 "temporal_resolution"
       = Some (VOp "/" [VNum temporal_res; VNum t]) /\
     kwarg_at (history s) 57 "tr_duration" = Some (VInt (int_of t)) /\
     kwarg_at (history s) 57 "stimfunction_tr"
       = Some (VItem (VRes 47) (VSlice VNone VNone (VInt (int_of t)))) /\
     In ("timepoints",
         VOp "list" [VOp "range" [VInt 0; VInt (total_time dim3 t);
                                  VInt (int_of t)]])
        (assigns_in (history s)) /\
     nth_error (calls_in (history s)) 72
       = Some ("fmrisim._generate_noise_temporal_drift",
               [VInt (total_time dim3 t); VInt (int_of t)]) /\
     arg_at (history s) 75 0
       = Some (VOp "abs" [VItem (VRes 37)
                            (VSlice VNone VNone (VInt (int_of t)))]) /\
     arg_at (history s) 118 0
       = Some (VOp "+" [VItem (VRes 35)
                          (VSlice VNone (VInt (int_div (events (total_time dim3 t)) 2))
                                  VNone);
                        VOp "/" [VInt hrf_lag; VNum t]])).
Proof.
  intros Hz Hd. pose proof (tr_of_zooms_fourth (zooms w) z Hz) as Ht.
  destruct (normalize_tr_cases z) as [Hle Hgt].
  split; [intros H; now rewrite Ht, (Hle H)|].
  split; [intros H; now rewrite Ht, (Hgt H)|].
  intros Hr Hq. exists (normalize_tr z). run_notebook w Hr.
  assert (z = z3) by congruence. assert (dim3 = d3) by congruence.
  subst z dim3.
  match goal with
  | Hex : executes w 0 (notebook w) ?evs ?out |- _ =>
      exists out, (State (List.length (calls_in evs)) (rev evs));
      split; [exact Ht|];
      split; [exact (executes_run w evs out Hex Hq)|]
  end.
  unfold history, callees, callee_at, arg_at, kwarg_at.
  cbn [trace]. rewrite rev_involutive, <- ?Hcs.
  repeat apply conj; try reflexivity; assigned.
Qed.

Lemma tr_unit_normalization_witness :
  tr_of_zooms (zooms sample_world) = Ok (1500 / 1000) /\
  exists t out s,
    tr_of_zooms (zooms sample_world) = Ok t /\
    run sample_world = (Ok out, s) /\
    kwarg_at (history s) 48 "tr_duration" = Some (VNum t).
Proof.
  destruct (tr_unit_normalization sample_world 1500 300 eq_refl eq_refl)
    as (_ & Hms & Hrun).
  split; [apply Hms; reflexivity|].
  destruct (Hrun sample_world_runnable sample_world_quiet)
    as (t & out & s & H).
  exists t, out, s. intuition.
Defined.


(** ** Further properties of the notebook's own code *)

Local Close Scope string_scope.

(** *** More on the schedule of cell 24 *)

Lemma int_of_nonneg (q : Q) : 0 <= q -> (0 <= int_of q)%Z.
Proof.
  intros H. unfold int_of.
  assert (E : Qle_bool 0 q = true) by now apply Qle_bool_iff.
  rewrite E. change 0%Z with (Qfloor 0). now apply Qfloor_resp_le.
Qed.

Lemma total_time_after_burn_in (dim3 : Z) (tr : Q) :
  (0 <= dim3)%Z -> 0 <= tr -> (burn_in <= total_time dim3 tr)%Z.
Proof.
  intros Hd Ht. unfold total_time.
  assert (0 <= int_of (inject_Z dim3 * tr))%Z; [|lia].
  apply int_of_nonneg. apply Qmult_le_0_compat; [|assumption].
  change 0 with (inject_Z 0). now rewrite <- Zle_Qle.
Qed.

Lemma events_bounds (t : Z) :
  (0 < t)%Z ->
  (0 <= events t)%Z /\
  (events t * (event_duration + isi) <= Z.max 0 (t - 10))%Z /\
  (t < 20 -> events t = 0)%Z /\
  (20 <= t -> 2 <= events t)%Z.
Proof.
  intros Ht. unfold events, int_div, event_duration, isi.
  change ((2 + 3) * 2)%Z with 10%Z. change (2 + 3)%Z with 5%Z.
  Z.quot_rem_to_equations. lia.
Qed.

Lemma linspace_at_between (start stop : Q) (div i : nat) :
  (0 < div)%nat -> (i <= div)%nat -> start <= stop ->
  start <= linspace_at start stop div i /\
  linspace_at start stop div i <= stop.
Proof.
  intros Hd Hi Hle. unfold linspace_at.
  set (d := inject_Z (Z.of_nat div)).
  set (k := inject_Z (Z.of_nat i)).
  assert (Hdpos : 0 < d)
    by (unfold d; change 0 with (inject_Z 0); rewrite <- Zlt_Qlt; lia).
  assert (Hk0 : 0 <= k)
    by (unfold k; change 0 with (inject_Z 0); rewrite <- Zle_Qle; lia).
  assert (Hkd : k <= d) by (unfold k, d; rewrite <- Zle_Qle; lia).
  set (s := (stop - start) / d).
  assert (Hs : 0 <= s).
  { unfold s. apply Qle_shift_div_l; [assumption|]. lra. }
  assert (Hds : d * s == stop - start)
    by (unfold s; field; intros K; rewrite K in Hdpos; lra).
  assert (H1 : 0 <= k * s) by now apply Qmult_le_0_compat.
  assert (H2 : k * s <= d * s) by now apply Qmult_le_compat_r.
  rewrite Hds in H2. split; lra.
Qed.

Lemma onsets_all_elements (e : Z) (l : list Q) :
  (2 <= e)%Z -> onsets_all e = Ok l ->
  forall x, In x l ->
  exists i, (i <= Z.to_nat e - 1)%nat /\
            x == linspace_at (inject_Z burn_in)
                   (inject_Z (e * (event_duration + isi))) (Z.to_nat e - 1) i.
Proof.
  intros He Hl x Hx. unfold onsets_all, linspace in Hl.
  destruct (e <? 0)%Z eqn:E; [apply Z.ltb_lt in E; lia|].
  destruct (Z.to_nat e) as [|[|d]] eqn:En; try lia.
  match type of Hl with
  | Ok ?r = Ok _ => assert (Hl' : l = r) by congruence
  end.
  subst l. clear Hl.
  replace (S (S d) - 1)%nat with (S d) by lia.
  apply in_app_or in Hx. destruct Hx as [Hx | [Hx | []]].
  - apply in_map_iff in Hx. destruct Hx as (i & Hi & Hin).
    apply in_seq in Hin. exists i. split; [lia|]. now rewrite Hi.
  - exists (S d). split; [lia|]. subst x. symmetry.
    apply linspace_at_last. lia.
Qed.

Lemma onsets_between (e : Z) (l : list Q) :
  (0 <= e)%Z -> onsets_all e = Ok l ->
  forall x, In x l ->
    inject_Z burn_in <= x /\ x <= inject_Z (e * (event_duration + isi)).
Proof.
  intros He Hl x Hx.
  destruct (Z_lt_le_dec e 2) as [Hlt | Hge].
  - assert (Hcase : e = 0%Z \/ e = 1%Z) by lia.
    destruct Hcase; subst e; vm_compute in Hl; inversion Hl; subst l.
    + destruct Hx.
    + destruct Hx as [Hx | []]. subst x. split; vm_compute; discriminate.
  - destruct (onsets_all_elements e l Hge Hl x Hx) as (i & Hi & Hxi).
    assert (Hstop : inject_Z burn_in <= inject_Z (e * (event_duration + isi)))
      by (rewrite <- Zle_Qle; unfold burn_in, event_duration, isi; lia).
    destruct (linspace_at_between (inject_Z burn_in)
                (inject_Z (e * (event_duration + isi)))
                (Z.to_nat e - 1) i) as [Hlo Hhi];
      [lia | lia | exact Hstop |].
    rewrite <- Hxi in Hlo, Hhi. now split.
Qed.

(** X1: Cell 24 keeps every event inside the run: for an image with a
    non-negative number of volumes and a non-negative repetition time
    [np.linspace] does not raise, and each onset lies between [burn_in] and
    [total_time - 2 * (event_duration + isi)], so the event it starts is
    over before [total_time]. *)
Theorem schedule_fits_the_run (dim3 : Z) (tr : Q) :
  (0 <= dim3)%Z -> 0 <= tr ->
  exists l,
    onsets_all (events (total_time dim3 tr)) = Ok l /\
    List.length l = Z.to_nat (events (total_time dim3 tr)) /\
    forall x, In x l ->
      inject_Z burn_in <= x /\
      x <= inject_Z (total_time dim3 tr - 2 * (event_duration + isi)) /\
      x + inject_Z event_duration < inject_Z (total_time dim3 tr).
Proof.
  intros Hd Ht.
  pose proof (total_time_after_burn_in dim3 tr Hd Ht) as HT.
  set (T := total_time dim3 tr) in *. unfold burn_in in HT.
  destruct (events_bounds T) as (He0 & Hup & Hsmall & Hbig); [lia|].
  destruct (onsets_all_spec (events T) He0) as (l & Hl & Hlen & _).
  exists l. split; [exact Hl|]. split; [exact Hlen|]. intros x Hx.
  destruct (Z_lt_le_dec T 20) as [Hlt | Hge].
  { rewrite (Hsmall Hlt) in Hlen. destruct l; [destruct Hx | discriminate]. }
  destruct (onsets_between (events T) l He0 Hl x Hx) as [Hlo Hhi].
  assert (Hend : inject_Z (events T * (event_duration + isi))
                 <= inject_Z (T - 2 * (event_duration + isi)))
    by (rewrite <- Zle_Qle; unfold event_duration, isi in *; lia).
  split; [exact Hlo|]. split; [lra|].
  assert (Hlast : inject_Z (T - 2 * (event_duration + isi))
                  + inject_Z event_duration < inject_Z T).
  { rewrite <- inject_Z_plus, <- Zlt_Qlt. unfold event_duration, isi. lia. }
  lra.
Qed.

Lemma schedule_fits_the_run_witness :
  exists l,
    onsets_all (events (total_time 300 (3 # 2))) = Ok l /\
    List.length l = Z.to_nat (events (total_time 300 (3 # 2))) /\
    forall x, In x l ->
      inject_Z burn_in <= x /\
      x <= inject_Z (total_time 300 (3 # 2) - 2 * (event_duration + isi)) /\
      x + inject_Z event_duration < inject_Z (total_time 300 (3 # 2)).
Proof.
  apply (schedule_fits_the_run 300 (3 # 2)); [lia | lra].
Defined.

(** X2: Cell 24 on short scans: the schedule holds at least one trial per
    condition exactly when the scan, [dim[3] * tr] seconds, lasts at least
    17 seconds.  Below that [events] is 0: [np.linspace] returns an empty
    array, both conditions are empty and so is the label vector the
    classifier is given. *)
Theorem scan_needs_seventeen_seconds (dim3 : Z) (tr : Q) :
  (0 <= dim3)%Z -> 0 <= tr ->
  (17 <= inject_Z dim3 * tr <-> (2 <= events (total_time dim3 tr))%Z) /\
  (inject_Z dim3 * tr < 17 ->
   onsets_all (events (total_time dim3 tr)) = Ok [] /\
   onsets_A (events (total_time dim3 tr)) [] = [] /\
   onsets_B (events (total_time dim3 tr)) [] = [] /\
   Glue.input_labels (onsets_A (events (total_time dim3 tr)) [])
                (onsets_B (events (total_time dim3 tr)) []) = []).
Proof.
  intros Hd Ht.
  assert (Hq : 0 <= inject_Z dim3 * tr).
  { apply Qmult_le_0_compat; [|assumption].
    change 0 with (inject_Z 0). now rewrite <- Zle_Qle. }
  assert (Hfloor : 17 <= inject_Z dim3 * tr
                   <-> (17 <= int_of (inject_Z dim3 * tr))%Z).
  { unfold int_of.
    assert (E : Qle_bool 0 (inject_Z dim3 * tr) = true)
      by now apply Qle_bool_iff.
    rewrite E. split.
    - intros H. rewrite <- (Qfloor_Z 17). now apply Qfloor_resp_le.
    - intros H. rewrite Zle_Qle in H.
      pose proof (Qfloor_le (inject_Z dim3 * tr)).
      change (inject_Z 17) with 17 in H. lra. }
  pose proof (int_of_nonneg _ Hq) as H0.
  assert (HT : (0 < total_time dim3 tr)%Z)
    by (unfold total_time, burn_in; lia).
  destruct (events_bounds _ HT) as (_ & _ & Hsmall & Hbig).
  split.
  - rewrite Hfloor. unfold total_time, burn_in in *. split.
    + intros H. apply Hbig. lia.
    + intros H.
      destruct (Z_lt_le_dec (int_of (inject_Z dim3 * tr)) 17) as [Hlt|]; [|lia].
      rewrite Hsmall in H by lia. lia.
  - intros Hshort.
    assert (Hlt : (int_of (inject_Z dim3 * tr) < 17)%Z).
    { destruct (Z_lt_le_dec (int_of (inject_Z dim3 * tr)) 17) as [|Hge];
        [assumption|].
      apply Hfloor in Hge. lra. }
    rewrite Hsmall by (unfold total_time, burn_in; lia).
    repeat split.
Qed.

Lemma scan_needs_seventeen_seconds_witness :
  (2 <= events (total_time 300 (3 # 2)))%Z /\
  onsets_all (events (total_time 10 (3 # 2))) = Ok [].
Proof.
  split.
  - apply (proj1 (scan_needs_seventeen_seconds 300 (3 # 2) ltac:(lia) ltac:(lra))).
    vm_compute. discriminate.
  - apply (proj2 (scan_needs_seventeen_seconds 10 (3 # 2) ltac:(lia) ltac:(lra))).
    reflexivity.
Defined.

Lemma linspace_at_gap (start stop : Q) (div i j : nat) (g : Q) :
  (0 < div)%nat -> g < (stop - start) / inject_Z (Z.of_nat div) -> 0 <= g ->
  linspace_at start stop div i < linspace_at start stop div j ->
  linspace_at start stop div i + g < linspace_at start stop div j.
Proof.
  intros Hd Hg Hg0 Hlt. unfold linspace_at in *.
  set (s := (stop - start) / inject_Z (Z.of_nat div)) in *.
  assert (Hij : (i < j)%nat).
  { destruct (Nat.lt_ge_cases i j) as [H | H]; [exact H | exfalso].
    assert (inject_Z (Z.of_nat j) <= inject_Z (Z.of_nat i))
      by (rewrite <- Zle_Qle; lia).
    assert (inject_Z (Z.of_nat j) * s <= inject_Z (Z.of_nat i) * s)
      by (apply Qmult_le_compat_r; [assumption | lra]).
    lra. }
  assert (H1 : inject_Z (Z.of_nat i) + 1 <= inject_Z (Z.of_nat j)).
  { change 1 with (inject_Z 1). rewrite <- inject_Z_plus, <- Zle_Qle. lia. }
  assert (H2 : (inject_Z (Z.of_nat i) + 1) * s <= inject_Z (Z.of_nat j) * s)
    by (apply Qmult_le_compat_r; [assumption | lra]).
  assert (H3 : (inject_Z (Z.of_nat i) + 1) * s
               == inject_Z (Z.of_nat i) * s + s) by ring.
  rewrite H3 in H2. lra.
Qed.

(** X3: Cell 24 spaces the events out: any two different onsets are more than
    [event_duration + isi] seconds apart, whatever the shuffle does, so an
    event and the pause after it are over before the next event starts. *)
Theorem onsets_do_not_overlap (e : Z) (l shuffled : list Q) :
  onsets_all e = Ok l -> Permutation l shuffled ->
  forall x y, In x shuffled -> In y shuffled -> x < y ->
              x + inject_Z (event_duration + isi) < y.
Proof.
  intros Hl Hperm x y Hx Hy Hxy.
  apply (Permutation_in _ (Permutation_sym Hperm)) in Hx, Hy.
  destruct (Z_lt_le_dec e 2) as [Hsmall | Hbig].
  - exfalso. unfold onsets_all, linspace in Hl.
    destruct (e <? 0)%Z; [discriminate|].
    destruct (Z.to_nat e) as [|[|d]] eqn:En; try lia;
      inversion Hl; subst l.
    + destruct Hx.
    + destruct Hx as [<- | []], Hy as [<- | []]. lra.
  - destruct (onsets_all_elements e l Hbig Hl x Hx) as (i & _ & Hxi).
    destruct (onsets_all_elements e l Hbig Hl y Hy) as (j & _ & Hyj).
    rewrite Hxi, Hyj in *.
    apply linspace_at_gap; try assumption; try lia.
    + apply Qlt_shift_div_l.
      * change 0 with (inject_Z 0). rewrite <- Zlt_Qlt. lia.
      * unfold Qminus. rewrite <- inject_Z_opp, <- inject_Z_plus,
          <- inject_Z_mult, <- Zlt_Qlt.
        unfold event_duration, isi, burn_in. lia.
    + change 0 with (inject_Z 0). rewrite <- Zle_Qle.
      unfold event_duration, isi. lia.
Qed.

Lemma onsets_do_not_overlap_witness :
  exists l,
    onsets_all 4 = Ok l /\
    forall x y, In x (rev l) -> In y (rev l) -> x < y ->
                x + inject_Z (event_duration + isi) < y.
Proof.
  eexists. split; [reflexivity|].
  apply (onsets_do_not_overlap 4 _ (rev _) eq_refl). apply Permutation_rev.
Defined.

(** *** More on the repetition time of cell 8 *)

Lemma int_of_zero_iff (q : Q) : int_of q = 0%Z <-> -(1) < q /\ q < 1.
Proof.
  unfold int_of. destruct (Qle_bool 0 q) eqn:E.
  - apply Qle_bool_iff in E. split.
    + intros H. pose proof (Qlt_floor q) as Hf. rewrite H in Hf.
      change (inject_Z (0 + 1)) with 1 in Hf. split; lra.
    + intros [_ H1].
      assert (0 <= Qfloor q)%Z
        by (change 0%Z with (Qfloor 0); now apply Qfloor_resp_le).
      assert (Qfloor q < 1)%Z.
      { rewrite Zlt_Qlt. pose proof (Qfloor_le q).
        change (inject_Z 1) with 1. lra. }
      lia.
  - assert (Hneg : q < 0).
    { apply Qnot_le_lt. intros H. apply Qle_bool_iff in H. congruence. }
    split.
    + intros H. pose proof (Qceiling_lt q) as Hc. rewrite H in Hc.
      change (inject_Z (0 - 1)) with (-(1)) in Hc. split; lra.
    + intros [Hm1 _].
      assert (Qceiling q <= 0)%Z.
      { change 0%Z with (Qceiling 0). apply Qceiling_resp_le. lra. }
      assert (-1 < Qceiling q)%Z.
      { rewrite Zlt_Qlt. pose proof (Qle_ceiling q).
        change (inject_Z (-1)) with (-(1)). lra. }
      lia.
Qed.

(** X4: Cells 8, 35 and 39 together: [int(tr)], the step of the slices and of
    the range, is zero exactly when the fourth zoom is below one second in
    absolute value or lies strictly between 100 and 1000, the values that
    cell 8 takes for milliseconds and turns into less than a second. *)
Theorem step_is_zero_iff (z : Q) :
  int_of (normalize_tr z) = 0%Z <->
  (-(1) < z /\ z < 1) \/ (100 < z /\ z < 1000).
Proof.
  rewrite int_of_zero_iff. unfold normalize_tr.
  destruct (gtb z 100) eqn:G.
  - apply gtb_true in G.
    assert (E : z / 1000 == z * (1 # 1000)) by (field; discriminate).
    rewrite E. split.
    + intros [_ H]. right. split; lra.
    + intros [[_ H] | [_ H]]; split; lra.
  - apply gtb_false in G. split.
    + intros [H1 H2]. left. now split.
    + intros [H | [H _]]; [exact H | lra].
Qed.

(** *** More on the loop of cell 19 *)

(** The loop on a prefix of the coordinates, with an array that is longer
    than the part it fills. *)
Lemma loop_gather_part (es : Q) (tsd : arr3) (cs rest : list (nat * nat * nat)) :
  forall (pre post : list (nat * nat * nat)) (done pad : list Q),
  cs = pre ++ rest ++ post -> List.length done = List.length pre ->
  for_each
    (loop_pass es tsd
       (map (fun c => fst (fst c)) cs, map (fun c => snd (fst c)) cs, map snd cs))
    (done ++ repeat 0 (List.length rest) ++ pad)
    (seq (List.length pre) (List.length rest))
  = and_then (gather es tsd rest) (fun vs => Ok (done ++ vs ++ pad)).
Proof.
  induction rest as [|[[x y] z] rest IH]; intros pre post done pad Hcs Hlen.
  - simpl. reflexivity.
  - simpl. unfold loop_pass at 1. simpl fst; simpl snd. subst cs.
    replace (pre ++ ((x, y, z) :: rest) ++ post)
      with (pre ++ (x, y, z) :: (rest ++ post)) by reflexivity.
    rewrite !index_middle. simpl.
    destruct (getitem3 tsd x y z) as [v|e]; simpl; [|reflexivity].
    rewrite <- Hlen, setitem_middle. simpl.
    specialize (IH (pre ++ [(x, y, z)]) post (done ++ [es * v]) pad).
    rewrite <- !app_assoc in IH. simpl in IH.
    rewrite !length_app in IH. simpl in IH.
    rewrite Hlen, Nat.add_1_r in *. rewrite IH by (auto; lia).
    destruct (gather es tsd rest); simpl; [|reflexivity].
    now rewrite <- app_assoc.
Qed.

Lemma gather_raises_index (es : Q) (tsd : arr3) (cs : list (nat * nat * nat))
    (e : exn) :
  gather es tsd cs = Raise e -> e = IndexError.
Proof.
  induction cs as [|[[x y] z] cs IH]; simpl; [discriminate|].
  unfold getitem3.
  destruct (nth_error tsd x) as [plane|]; [|intros H; now inversion H].
  destruct (nth_error plane y) as [row|]; [|intros H; now inversion H].
  destruct (nth_error row z) as [v|]; [|intros H; now inversion H].
  simpl. destruct (gather es tsd cs) as [vs|e']; simpl; [discriminate|].
  intros H. inversion H; subst. now apply IH.
Qed.

Lemma for_each_app (body : list Q -> nat -> result (list Q)) (sc : list Q)
    (l1 l2 : list nat) :
  for_each body sc (l1 ++ l2)
  = and_then (for_each body sc l1) (fun sc' => for_each body sc' l2).
Proof.
  revert sc. induction l1 as [|i l1 IH]; intros sc; simpl; [reflexivity|].
  destruct (body sc i) as [sc'|e]; simpl; [apply IH | reflexivity].
Qed.

(** X5: What cell 19 does on any signal volume, with [n = int(sum)] and [cs]
    the coordinates of the voxels equal to 1: a negative [n] makes
    [np.zeros] raise; with [n] at most the number of those voxels the loop
    is the gather over the first [n] of them; with more it runs out of
    coordinates and raises IndexError. *)
Theorem signal_change_on_any_volume (es : Q) (sv tsd : arr3) :
  let n := int_of (arr_sum sv) in
  let cs := where_coords (fun v => Qeq_bool v 1) sv in
  ((n < 0)%Z -> signal_change es sv tsd = Raise ValueError) /\
  ((0 <= n <= Z.of_nat (List.length cs))%Z ->
   signal_change es sv tsd = gather es tsd (firstn (Z.to_nat n) cs)) /\
  ((Z.of_nat (List.length cs) < n)%Z ->
   signal_change es sv tsd = Raise IndexError).
Proof.
  intros n cs. unfold signal_change, np_where, zeros_col, range0.
  fold n. fold cs. split; [|split].
  - intros Hn. apply Z.ltb_lt in Hn. now rewrite Hn.
  - intros [H0 Hn].
    destruct (n <? 0)%Z eqn:E; [apply Z.ltb_lt in E; lia|]. simpl.
    pose proof (loop_gather_part es tsd cs (firstn (Z.to_nat n) cs) []
                  (skipn (Z.to_nat n) cs) [] []) as H.
    simpl in H. rewrite app_nil_r, length_firstn, Nat.min_l in H by lia.
    rewrite H by (auto; now rewrite firstn_skipn).
    destruct (gather es tsd (firstn (Z.to_nat n) cs)); simpl;
      [now rewrite app_nil_r | reflexivity].
  - intros Hn.
    destruct (n <? 0)%Z eqn:E; [apply Z.ltb_lt in E; lia|]. simpl.
    set (len := List.length cs) in *.
    replace (Z.to_nat n) with (len + S (Z.to_nat n - len - 1))%nat by lia.
    rewrite seq_app, repeat_app, for_each_app.
    pose proof (loop_gather_part es tsd cs cs [] [] []
                  (repeat 0 (S (Z.to_nat n - len - 1)))) as H.
    cbn [app List.length] in H. fold len in H.
    rewrite H by (auto; now rewrite app_nil_r).
    destruct (gather es tsd cs) as [vs|e] eqn:G.
    + cbn [and_then seq for_each Nat.add]. unfold loop_pass at 1. cbn [fst].
      now rewrite (index_out (map (fun c => fst (fst c)) cs) len)
        by (rewrite length_map; unfold len; lia).
    + cbn [and_then]. now rewrite (gather_raises_index es tsd cs e G).
Qed.

Example signal_change_outcomes :
  signal_change 1 [[[-2; 1; 0]]] [[[5; 7; 9]]] = Raise ValueError /\
  signal_change 1 [[[1; -1; 1]]] [[[5; 7; 9]]] = Ok [1 * 5] /\
  signal_change 1 [[[2; 1; 0]]] [[[5; 7; 9]]] = Raise IndexError.
Proof. repeat split. Qed.

Lemma signal_change_on_any_volume_witness :
  signal_change 1 [[[2; 1; 0]]] [[[5; 7; 9]]] = Raise IndexError.
Proof.
  apply (proj2 (proj2 (signal_change_on_any_volume 1 [[[2; 1; 0]]]
                         [[[5; 7; 9]]]))).
  vm_compute. reflexivity.
Defined.

(** *** Cell 19 on volumes of one shape *)

Lemma in_combine_seq {A} (l : list A) (s i : nat) (a : A) :
  In (i, a) (combine (seq s (List.length l)) l) ->
  (s <= i)%nat /\ nth_error l (i - s) = Some a.
Proof.
  revert s. induction l as [|b l IH]; intros s; simpl; [intros []|].
  intros [H | H].
  - inversion H; subst. now rewrite Nat.sub_diag.
  - destruct (IH (S s) H) as [Hle Hn]. split; [lia|].
    replace (i - s)%nat with (S (i - S s)) by lia. exact Hn.
Qed.

Lemma in_enum_nth {A} (l : list A) (i : nat) (a : A) :
  In (i, a) (enum l) -> nth_error l i = Some a.
Proof.
  intros H. apply in_combine_seq in H. now rewrite Nat.sub_0_r in H.
Qed.

(** The coordinates [np.where] reports are positions of the array. *)
Lemma where_coords_in_bounds (p : Q -> bool) (a : arr3) (x y z : nat) :
  In (x, y, z) (where_coords p a) ->
  exists v, getitem3 a x y z = Ok v /\ p v = true.
Proof.
  unfold where_coords. intros H.
  apply in_flat_map in H. destruct H as ([x' plane] & Hx & H).
  apply in_flat_map in H. destruct H as ([y' row] & Hy & H).
  apply in_flat_map in H. destruct H as ([z' v] & Hz & H).
  simpl in *. destruct (p v) eqn:E; [|destruct H].
  destruct H as [H | []]. inversion H; subst.
  apply in_enum_nth in Hx, Hy, Hz.
  exists v. unfold getitem3. now rewrite Hx, Hy, Hz.
Qed.

Lemma Forall2_nth {A B} (R : A -> B -> Prop) (l1 : list A) (l2 : list B) :
  Forall2 R l1 l2 ->
  forall i a, nth_error l1 i = Some a ->
  exists b, nth_error l2 i = Some b /\ R a b.
Proof.
  induction 1 as [|a0 b0 l1 l2 H0 H IH]; intros [|i] a Hi; simpl in *;
    try discriminate.
  - inversion Hi; subst. eauto.
  - now apply IH.
Qed.

Lemma getitem3_same_shape (a b : arr3) (x y z : nat) (v : Q) :
  Forall2 (Forall2 (fun r1 r2 : list Q => List.length r1 = List.length r2)) a b ->
  getitem3 a x y z = Ok v -> is_ok (getitem3 b x y z) = true.
Proof.
  intros Hs. unfold getitem3.
  destruct (nth_error a x) as [pa|] eqn:Ex; [|discriminate].
  destruct (nth_error pa y) as [ra|] eqn:Ey; [|discriminate].
  destruct (nth_error ra z) as [va|] eqn:Ez; [|discriminate]. intros _.
  destruct (Forall2_nth _ _ _ Hs x pa Ex) as (pb & Hx & Hp). rewrite Hx.
  destruct (Forall2_nth _ _ _ Hp y ra Ey) as (rb & Hy & Hr). rewrite Hy.
  assert (Hz : (z < List.length rb)%nat).
  { rewrite <- Hr. apply nth_error_Some. congruence. }
  apply nth_error_Some in Hz. now destruct (nth_error rb z).
Qed.

(** X6: Cell 19 as the notebook uses it: [signal_volume] and [temporal_sd]
    have the shape [dim[0:3]].  When every voxel of the signal volume is 0
    or 1 the loop does not raise, fills exactly [int(signal_volume.sum())]
    entries, one per nonzero voxel, and each is [effect_size] times
    [temporal_sd] at that voxel. *)
Theorem signal_change_on_matching_volumes (es : Q) (sv tsd : arr3) :
  binary sv = true ->
  Forall2 (Forall2 (fun r1 r2 : list Q => List.length r1 = List.length r2))
          sv tsd ->
  exists r,
    signal_change es sv tsd = Ok r /\
    Z.of_nat (List.length r) = int_of (arr_sum sv) /\
    entrywise_gather es sv tsd r.
Proof.
  intros Hb Hs. rewrite (signal_change_binary es sv tsd Hb).
  unfold vectorized_gather.
  destruct (gather_total es tsd (where_coords nonzero sv)) as [r Hr].
  { intros x y z Hin. apply where_coords_in_bounds in Hin.
    destruct Hin as (v & Hv & _). exact (getitem3_same_shape _ _ _ _ _ _ Hs Hv). }
  exists r. split; [exact Hr|].
  pose proof (gather_entries es tsd _ r Hr) as [Hlen Hent].
  split; [|split; assumption].
  rewrite Hlen, <- (where_coords_binary sv Hb).
  symmetry. apply int_of_nat. now apply arr_sum_count.
Qed.

Lemma signal_change_on_matching_volumes_witness :
  exists r,
    signal_change 1 [[[0; 1]; [1; 1]]] [[[5; 7]; [9; 11]]] = Ok r /\
    Z.of_nat (List.length r) = int_of (arr_sum [[[0; 1]; [1; 1]]]) /\
    entrywise_gather 1 [[[0; 1]; [1; 1]]] [[[5; 7]; [9; 11]]] r.
Proof.
  apply (signal_change_on_matching_volumes 1 [[[0; 1]; [1; 1]]]
           [[[5; 7]; [9; 11]]]).
  - reflexivity.
  - repeat constructor.
Defined.

(** *** The region of interest and the trial volumes of cell 47 *)

Lemma int_of_unique (q : Q) (z : Z) :
  0 <= q -> inject_Z z <= q -> q < inject_Z (z + 1) -> int_of q = z.
Proof.
  intros H0 Hlo Hhi. unfold int_of.
  assert (E : Qle_bool 0 q = true) by now apply Qle_bool_iff.
  rewrite E. pose proof (Qfloor_le q) as Hf. pose proof (Qlt_floor q) as Hc.
  assert (Qfloor q < z + 1)%Z by (rewrite Zlt_Qlt; lra).
  assert (z < Qfloor q + 1)%Z by (rewrite Zlt_Qlt; lra).
  lia.
Qed.

Lemma roi_bounds (c fs : Z) :
  (0 < fs)%Z -> (fs - 1 <= 2 * c)%Z ->
  roi_lb c fs = (c - (fs - 1) / 2 - (fs - 1) mod 2)%Z /\
  roi_ub c fs = (c + (fs - 1) / 2 + 1)%Z.
Proof.
  intros Hfs Hc. unfold roi_lb, roi_ub.
  pose proof (Z.div_mod (fs - 1) 2 ltac:(lia)) as Hdm.
  pose proof (Z.mod_pos_bound (fs - 1) 2 ltac:(lia)) as Hr.
  set (k := ((fs - 1) / 2)%Z) in *. set (r := ((fs - 1) mod 2)%Z) in *.
  assert (Hk : (0 <= k)%Z) by (unfold k; apply Z.div_pos; lia).
  assert (Hq : inject_Z (fs - 1) / 2 == inject_Z k + inject_Z r * (1 # 2)).
  { rewrite Hdm, inject_Z_plus, inject_Z_mult.
    change (inject_Z 2) with 2. field. }
  assert (Hk0 : 0 <= inject_Z k)
    by (change 0 with (inject_Z 0); now rewrite <- Zle_Qle).
  assert (Hck : inject_Z k + inject_Z r <= inject_Z c).
  { rewrite <- inject_Z_plus, <- Zle_Qle. lia. }
  assert (Hcase : r = 0%Z \/ r = 1%Z) by lia.
  clearbody k r.
  destruct Hcase; subst r; split; apply int_of_unique; rewrite ?Hq;
    unfold Z.sub; rewrite ?inject_Z_plus, ?inject_Z_opp;
    change (inject_Z 0) with 0 in *; change (inject_Z 1) with 1 in *;
    change (inject_Z (- 0)) with 0; change (inject_Z (- (1))) with (- (1));
    lra.
Qed.

(** X7: Cell 47, per axis: when the feature fits above index 0, that is
    [(feature_size - 1) / 2 <= coordinate], the bounds [lb] and [ub] are
    valid non-negative slice bounds around the coordinate, exactly
    [feature_size] apart, so on an axis that reaches [ub] the slice
    [lb:ub] has [feature_size] entries: the box cut out of [brain] has the
    [feature_size ** 3] voxels the reshape to [(voxels, trials)] needs. *)
Theorem roi_spans_feature_size (c fs : Z) :
  (0 < fs)%Z -> (fs - 1 <= 2 * c)%Z ->
  (0 <= roi_lb c fs)%Z /\
  (roi_lb c fs <= c < roi_ub c fs)%Z /\
  (roi_ub c fs - roi_lb c fs = fs)%Z /\
  forall (A : Type) (axis : list A),
    (roi_ub c fs <= Z.of_nat (List.length axis))%Z ->
    List.length (roi_axis axis c fs) = Z.to_nat fs.
Proof.
  intros Hfs Hc. destruct (roi_bounds c fs Hfs Hc) as [Hlb Hub].
  pose proof (Z.div_mod (fs - 1) 2 ltac:(lia)) as Hdm.
  pose proof (Z.mod_pos_bound (fs - 1) 2 ltac:(lia)) as Hr.
  assert (Hk : (0 <= (fs - 1) / 2)%Z) by (apply Z.div_pos; lia).
  repeat apply conj; try lia.
  intros A axis Hlen. unfold roi_axis, slice, clamp.
  destruct (roi_lb c fs <? 0)%Z eqn:E1; [apply Z.ltb_lt in E1; lia|].
  destruct (roi_ub c fs <? 0)%Z eqn:E2; [apply Z.ltb_lt in E2; lia|].
  rewrite length_firstn, length_skipn. lia.
Qed.

Lemma roi_spans_feature_size_witness :
  (roi_ub 24 3 - roi_lb 24 3 = 3)%Z /\
  List.length (roi_axis (seq 0 64) 24 3) = 3%nat.
Proof.
  destruct (roi_spans_feature_size 24 3) as (_ & _ & Hw & Hs); [lia | lia |].
  split; [exact Hw|]. apply Hs. vm_compute. discriminate.
Defined.

(** A coordinate closer to index 0 than half the feature makes [lb]
    negative, which a slice reads from the end of the axis: the region
    comes out empty. *)
Example roi_wraps_around :
  roi_lb 0 3 = (-1)%Z /\ roi_ub 0 3 = 2%Z /\ roi_axis (seq 0 64) 0 3 = [].
Proof. repeat split. Qed.

(** X8: Cell 47 picks, for each onset, the volume at [int(onset + hrf_lag /
    tr)].  With a repetition time of at least one second every such index
    lies between [burn_in] and [total_time - 6]: it is a valid
    non-negative position on a time axis of [total_time] entries. *)
Theorem trial_indices_inside_run (dim3 : Z) (tr : Q) (l : list Q) :
  (0 <= dim3)%Z -> 1 <= tr ->
  onsets_all (events (total_time dim3 tr)) = Ok l ->
  forall x, In x l ->
    (burn_in <= trial_index hrf_lag tr x)%Z /\
    (trial_index hrf_lag tr x <= total_time dim3 tr - 6)%Z.
Proof.
  intros Hd Ht Hl x Hx.
  assert (Ht0 : 0 <= tr) by lra.
  pose proof (total_time_after_burn_in dim3 tr Hd Ht0) as HT.
  set (T := total_time dim3 tr) in *. unfold burn_in in HT.
  destruct (events_bounds T) as (He0 & Hup & _ & _); [lia|].
  destruct (onsets_between (events T) l He0 Hl x Hx) as [Hlo Hhi].
  assert (Hev : (3 <= events T * (event_duration + isi))%Z).
  { rewrite Zle_Qle. unfold burn_in in Hlo. lra. }
  assert (Hend : inject_Z (events T * (event_duration + isi))
                 <= inject_Z (T - 10)) by (rewrite <- Zle_Qle; lia).
  assert (Hlag0 : 0 <= inject_Z hrf_lag / tr).
  { apply Qle_shift_div_l; [lra|]. vm_compute. discriminate. }
  assert (Hlag4 : inject_Z hrf_lag / tr <= 4).
  { apply Qle_shift_div_r; [lra|]. change (inject_Z hrf_lag) with 4. lra. }
  unfold trial_index. set (q := x + inject_Z hrf_lag / tr).
  assert (Hq3 : inject_Z burn_in <= q) by (unfold q; lra).
  assert (HqT : q <= inject_Z (T - 6)).
  { unfold q. replace (T - 6)%Z with ((T - 10) + 4)%Z by lia.
    rewrite inject_Z_plus. change (inject_Z 4) with 4. lra. }
  assert (Hq0 : 0 <= q) by (unfold burn_in in Hq3; change (inject_Z 3) with 3 in Hq3; lra).
  unfold int_of.
  assert (E : Qle_bool 0 q = true) by now apply Qle_bool_iff.
  rewrite E. split.
  - rewrite <- (Qfloor_Z burn_in). now apply Qfloor_resp_le.
  - rewrite <- (Qfloor_Z (T - 6)). now apply Qfloor_resp_le.
Qed.

Lemma trial_indices_inside_run_witness :
  exists l,
    onsets_all (events (total_time 300 (3 # 2))) = Ok l /\
    forall x, In x l ->
      (burn_in <= trial_index hrf_lag (3 # 2) x)%Z /\
      (trial_index hrf_lag (3 # 2) x <= total_time 300 (3 # 2) - 6)%Z.
Proof.
  destruct (onsets_all_spec (events (total_time 300 (3 # 2))))
    as (l & Hl & _); [vm_compute; discriminate|].
  exists l. split; [exact Hl|].
  apply (trial_indices_inside_run 300 (3 # 2) l); [lia | lra | exact Hl].
Defined.

Local Open Scope string_scope.

(** *** Runs that the notebook itself stops *)

Section Stops.

Variable w : world.








End Stops.












(** *** Runs that a library call stops *)










(** *** The loop of cell 19 inside a run *)





(** *** Randomness *)

(** X14: In a complete run the notebook draws from NumPy's global generator
    three times ([randn] twice for the two patterns, [shuffle] for the
    onsets) and never seeds it; the only call that is given a
    [random_state] is [train_test_split], with 0.  Patterns and schedule
    therefore differ from run to run; only the split is pinned. *)
Theorem only_the_split_is_seeded (w : world) :
  runnable w -> quiet w ->
  exists out s,
    run w = (Ok out, s) /\
    filter (String.prefix "np.random") (callees (history s))
      = ["np.random.randn"; "np.random.randn"; "np.random.shuffle"] /\
    times "np.random.seed" (callees (history s)) = 0%nat /\
    map fst (filter (fun c => match kwarg "random_state" (snd c) with
                              | Some _ => true
                              | None => false
                              end) (calls_in (history s)))
      = ["sklearn.model_selection.train_test_split"] /\
    kwarg_at (history s) 150 "random_state" = Some (VInt 0) /\
    kwarg_at (history s) 150 "test_size" = Some (VNum (1 # 5)).
Proof.
  intros Hr Hq. run_notebook w Hr. complete_run w Hq.
  repeat apply conj; reflexivity.
Qed.

Lemma only_the_split_is_seeded_witness :
  exists out s,
    run sample_world = (Ok out, s) /\
    times "np.random.seed" (callees (history s)) = 0%nat.
Proof.
  destruct (only_the_split_is_seeded sample_world sample_world_runnable
              sample_world_quiet) as (out & s & H).
  exists out, s. intuition.
Defined.

